(** * Torrent download manager: the supervision core of [backend/server.py]

    A shallow embedding of the FastAPI/libtorrent server: the monitoring
    loop [monitor_torrents], the websocket fan-out, and the routes
    [upload_torrent], [get_torrents], [pause_torrent], [resume_torrent],
    [delete_torrent], [update_torrent] and [get_system_stats], followed by
    the properties of the specification that were checked against them.

    Conventions.
    - Python's module-level globals ([torrent_handles], [download_stats],
      [websocket_connections], the libtorrent session [ses], the Mongo
      collection [db.torrents], the [logger]) are the fields of one record
      [world]; a coroutine is a function in the monad [M], which threads the
      world and may raise.  A raised exception keeps the mutations made
      before it, as in Python.
    - [torrent_handles] is iterated ([list(torrent_handles.items())]) and an
      exception leaves the [for] loop, so its insertion order is observable:
      it is an association list.  [download_stats] is only looked up, assigned,
      deleted and summed: it is a [gmap].
    - Each coroutine is modelled as running without interleaving at its
      [await] points.
    - libtorrent runs on its own between two calls of the server: it
      transfers, drops a torrent, resumes an auto-managed torrent that was
      paused through its handle.  No operation of the server performs
      such a step; where a statement needs one it is written out
      ([engine_drops], [engine_auto_manages]). *)

From Stdlib Require Import ZArith QArith Ascii.
From stdpp Require Import gmap strings list fin_maps sorting.

Local Open Scope Z_scope.

(** ** Exceptions and results *)

(** The exceptions the modelled code can raise.  The [detail] of an
    [HTTPException] is either a literal or [str(e)] of a caught exception. *)
Inductive exn : Type :=
| HTTPException (status_code : Z) (detail : detail_t)
| RuntimeError (what : string)
| OverflowError
| KeyError (key : string)
| ValueError
| WebSocketDisconnect
with detail_t : Type :=
| Literal (s : string)
| Str (e : exn).

Inductive result (A : Type) : Type :=
| Ok (a : A)
| Raise (e : exn).
Arguments Ok {A} a.
Arguments Raise {A} e.

Global Instance result_fmap : FMap result := λ A B f r,
  match r with
  | Ok a => Ok (f a)
  | Raise e => Raise e
  end.

(** ** The transfer engine (libtorrent) at its interface *)

(** [lt.torrent_status.state_t] *)
Inductive state_t : Type :=
| queued_for_checking
| checking_files
| downloading_metadata
| downloading
| finished
| seeding
| allocating
| checking_resume_data.

Global Instance state_t_eq_dec : EqDecision state_t.
Proof. solve_decision. Defined.

(** The attributes of [handle.status()] that the server reads.
    [progress] is libtorrent's fraction in [0, 1]: a 32-bit float, whose
    product with 100 is exact in Python's doubles, hence a rational here. *)
Record torrent_status : Type := {
  progress : Q;
  download_rate : Z;
  upload_rate : Z;
  state : state_t;
  total_download : Z;
  total_upload : Z;
  total_wanted : Z;
  num_peers : Z;
  num_seeds : Z;
  error : string;
  is_seeding : bool;
  paused : bool
}.

(** What [lt.torrent_info(torrent_data)] gives for a parseable descriptor. *)
Record torrent_info : Type := {
  ti_name : string;
  ti_total_size : Z;
  ti_info_hash : string
}.

(** A torrent inside the session.  The server sets rate limits and never
    reads them back: [t_download_limit] and [t_upload_limit] are the value
    last handed to [set_download_limit] and [set_upload_limit], [None]
    while the setter has not been called. *)
Record torrent : Type := {
  t_info_hash : string;
  t_status : torrent_status;
  t_auto_managed : bool;
  t_download_limit : option Z;
  t_upload_limit : option Z;
  t_reannounced : bool
}.

(** A handle is a reference to a torrent of the session; it is valid
    while the session still holds that torrent. *)
Definition handle : Type := nat.

Record session : Type := {
  torrents : gmap nat torrent;
  next_handle : handle
}.

(** ** Server-side data *)

(** [str(timedelta(seconds=n))], or the literal ["Unknown"].  The rendering
    of a [timedelta] is one-to-one, so the duration stands for its text. *)
Inductive eta_t : Type :=
| Unknown
| Timedelta (seconds : Z).

(** The [stats] dict built for each transfer on every tick; the key
    ['eta'] is added after the dict has been stored in [download_stats]. *)
Record stats : Type := {
  s_progress : Q;
  s_download_rate : Z;
  s_upload_rate : Z;
  s_state : state_t;
  s_total_download : Z;
  s_total_upload : Z;
  s_num_peers : Z;
  s_num_seeds : Z;
  s_error : option string;
  s_eta : option eta_t
}.

(** A document of [db.torrents]: [TorrentInfo.dict()], plus the keys the
    monitor adds with [$set] ([num_peers], [num_seeds], [error]). *)
Record document : Type := {
  d_id : string;
  d_name : string;
  d_size : Z;
  d_progress : Q;
  d_download_rate : Z;
  d_upload_rate : Z;
  d_eta : option eta_t;
  d_status : string;
  d_created_at : Z;
  d_completed_at : option Z;
  d_file_path : option string;
  d_download_speed_limit : option Z;
  d_upload_speed_limit : option Z;
  d_scheduled_start : option Z;
  d_num_peers : option Z;
  d_num_seeds : option Z;
  d_error : option (option string)
}.

Definition WebSocket : Type := nat.

(** The records written to [logger], by call site. *)
Inductive log_record : Type :=
| Warning_invalid_handle (torrent_id : string)
| Error_torrent (torrent_id : string) (err : string)
| Info_completed (torrent_id : string)
| Info_progress (torrent_id : string) (s : stats)
| Error_monitor (e : exn)
| Info_added (name : string)
| Error_adding (e : exn)
| Error_uploading (e : exn).

(** The process state.  [ws_closed] and [ws_received] are the far ends of
    the websockets: which connections are gone (a send to them raises) and
    what each one has been sent. *)
Record world : Type := {
  torrent_handles : list (string * handle);
  download_stats : gmap string stats;
  websocket_connections : list WebSocket;
  ses : session;
  db_torrents : list document;
  logger : list log_record;
  ws_closed : gset nat;
  ws_received : list (WebSocket * gmap string stats)
}.

Definition with_torrent_handles (f : list (string * handle) → list (string * handle))
    (w : world) : world :=
  {| torrent_handles := f (torrent_handles w);
     download_stats := download_stats w;
     websocket_connections := websocket_connections w;
     ses := ses w; db_torrents := db_torrents w; logger := logger w;
     ws_closed := ws_closed w; ws_received := ws_received w |}.

Definition with_download_stats (f : gmap string stats → gmap string stats)
    (w : world) : world :=
  {| torrent_handles := torrent_handles w;
     download_stats := f (download_stats w);
     websocket_connections := websocket_connections w;
     ses := ses w; db_torrents := db_torrents w; logger := logger w;
     ws_closed := ws_closed w; ws_received := ws_received w |}.

Definition with_websocket_connections (f : list WebSocket → list WebSocket)
    (w : world) : world :=
  {| torrent_handles := torrent_handles w;
     download_stats := download_stats w;
     websocket_connections := f (websocket_connections w);
     ses := ses w; db_torrents := db_torrents w; logger := logger w;
     ws_closed := ws_closed w; ws_received := ws_received w |}.

Definition with_ses (f : session → session) (w : world) : world :=
  {| torrent_handles := torrent_handles w;
     download_stats := download_stats w;
     websocket_connections := websocket_connections w;
     ses := f (ses w); db_torrents := db_torrents w; logger := logger w;
     ws_closed := ws_closed w; ws_received := ws_received w |}.

Definition with_db_torrents (f : list document → list document) (w : world) : world :=
  {| torrent_handles := torrent_handles w;
     download_stats := download_stats w;
     websocket_connections := websocket_connections w;
     ses := ses w; db_torrents := f (db_torrents w); logger := logger w;
     ws_closed := ws_closed w; ws_received := ws_received w |}.

Definition with_logger (f : list log_record → list log_record) (w : world) : world :=
  {| torrent_handles := torrent_handles w;
     download_stats := download_stats w;
     websocket_connections := websocket_connections w;
     ses := ses w; db_torrents := db_torrents w; logger := f (logger w);
     ws_closed := ws_closed w; ws_received := ws_received w |}.

Definition with_ws_received
    (f : list (WebSocket * gmap string stats) → list (WebSocket * gmap string stats))
    (w : world) : world :=
  {| torrent_handles := torrent_handles w;
     download_stats := download_stats w;
     websocket_connections := websocket_connections w;
     ses := ses w; db_torrents := db_torrents w; logger := logger w;
     ws_closed := ws_closed w; ws_received := f (ws_received w) |}.

(** ** The monad of coroutines: state and exceptions *)

Definition M (A : Type) : Type := world → result A * world.

Global Instance M_ret : MRet M := λ A a w, (Ok a, w).

Global Instance M_bind : MBind M := λ A B f m w,
  match m w with
  | (Ok a, w') => f a w'
  | (Raise e, w') => (Raise e, w')
  end.

Definition raise {A : Type} (e : exn) : M A := λ w, (Raise e, w).

(** [try: body except Exception as e: handler e] *)
Definition try_except {A : Type} (body : M A) (handler : exn → M A) : M A := λ w,
  match body w with
  | (Ok a, w') => (Ok a, w')
  | (Raise e, w') => handler e w'
  end.

Definition gets {A : Type} (f : world → A) : M A := λ w, (Ok (f w), w).
Definition modify (f : world → world) : M unit := λ w, (Ok tt, f w).
Definition lift {A : Type} (r : result A) : M A := λ w, (r, w).

(** [for x in l: body x] *)
Fixpoint for_each {A : Type} (body : A → M unit) (l : list A) : M unit :=
  match l with
  | [] => mret tt
  | x :: l' => body x ;; for_each body l'
  end.

Definition when (b : bool) (m : M unit) : M unit := if b then m else mret tt.

Definition log (r : log_record) : M unit := modify (with_logger (λ l, l ++ [r])).

(** ** Python dictionaries in insertion order ([torrent_handles]) *)

Section Dict.
Context {V : Type}.

(** [d.get(k)] / [k in d] *)
Fixpoint dict_get (k : string) (d : list (string * V)) : option V :=
  match d with
  | [] => None
  | (k', v) :: d' => if decide (k' = k) then Some v else dict_get k d'
  end.

(** [d[k] = v]: an existing key keeps its position, a new one goes last. *)
Fixpoint dict_set (k : string) (v : V) (d : list (string * V)) : list (string * V) :=
  match d with
  | [] => [(k, v)]
  | (k', v') :: d' =>
      if decide (k' = k) then (k, v) :: d' else (k', v') :: dict_set k v d'
  end.

(** What is left after [del d[k]].  Keys are unique in a dictionary, so
    dropping the binding of [k] is dropping every pair keyed [k]. *)
Definition dict_remove (k : string) (d : list (string * V)) : list (string * V) :=
  List.filter (λ kv, negb (bool_decide (kv.1 = k))) d.
End Dict.

(** ** The engine's operations

    libtorrent is an external collaborator; its calls are modelled at the
    interface the server relies on.  [add_torrent] refuses a duplicate
    (the server passes [duplicate_is_error]).  Every call made through a
    handle other than [is_valid], and [ses.remove_torrent], raise
    [RuntimeError] on a handle that is no longer valid.  The limit setters
    take a C [int]: the binding raises [OverflowError] on a Python [int]
    outside of it, before the handle is looked at. *)

Definition is_valid (h : handle) : M bool :=
  gets (λ w, bool_decide (is_Some (torrents (ses w) !! h))).

Definition handle_status (h : handle) : M torrent_status := λ w,
  match torrents (ses w) !! h with
  | Some t => (Ok (t_status t), w)
  | None => (Raise (RuntimeError "invalid torrent handle used"), w)
  end.

(** A call through the handle [h] that changes its torrent by [f]. *)
Definition alter_torrent (f : torrent → torrent) (h : handle) : M unit := λ w,
  match torrents (ses w) !! h with
  | Some _ =>
      (Ok tt, with_ses (λ s, {| torrents := alter f h (torrents s);
                                next_handle := next_handle s |}) w)
  | None => (Raise (RuntimeError "invalid torrent handle used"), w)
  end.

Definition set_paused (b : bool) (t : torrent) : torrent :=
  {| t_info_hash := t_info_hash t;
     t_status :=
       {| progress := progress (t_status t);
          download_rate := download_rate (t_status t);
          upload_rate := upload_rate (t_status t);
          state := state (t_status t);
          total_download := total_download (t_status t);
          total_upload := total_upload (t_status t);
          total_wanted := total_wanted (t_status t);
          num_peers := num_peers (t_status t);
          num_seeds := num_seeds (t_status t);
          error := error (t_status t);
          is_seeding := is_seeding (t_status t);
          paused := b |};
     t_auto_managed := t_auto_managed t;
     t_download_limit := t_download_limit t;
     t_upload_limit := t_upload_limit t;
     t_reannounced := t_reannounced t |}.

(** [handle.pause()] and [handle.resume()].  The pause of an auto-managed
    torrent holds until the engine manages its queue again. *)
Definition handle_pause : handle → M unit := alter_torrent (set_paused true).
Definition handle_resume : handle → M unit := alter_torrent (set_paused false).

(** Whether a Python [int] converts to a C [int]. *)
Definition c_int (v : Z) : bool := bool_decide (-2147483648 ≤ v ≤ 2147483647).

(** [handle.set_download_limit(limit)] *)
Definition set_download_limit (limit : Z) (h : handle) : M unit :=
  if c_int limit then
    alter_torrent (λ t, {| t_info_hash := t_info_hash t; t_status := t_status t;
                           t_auto_managed := t_auto_managed t;
                           t_download_limit := Some limit;
                           t_upload_limit := t_upload_limit t;
                           t_reannounced := t_reannounced t |}) h
  else raise OverflowError.

(** [handle.set_upload_limit(limit)] *)
Definition set_upload_limit (limit : Z) (h : handle) : M unit :=
  if c_int limit then
    alter_torrent (λ t, {| t_info_hash := t_info_hash t; t_status := t_status t;
                           t_auto_managed := t_auto_managed t;
                           t_download_limit := t_download_limit t;
                           t_upload_limit := Some limit;
                           t_reannounced := t_reannounced t |}) h
  else raise OverflowError.

Definition force_reannounce : handle → M unit :=
  alter_torrent (λ t, {| t_info_hash := t_info_hash t; t_status := t_status t;
                         t_auto_managed := t_auto_managed t;
                         t_download_limit := t_download_limit t;
                         t_upload_limit := t_upload_limit t;
                         t_reannounced := true |}).

(** [ses.remove_torrent(handle)] *)
Definition remove_torrent (h : handle) : M unit := λ w,
  match torrents (ses w) !! h with
  | Some _ =>
      (Ok tt, with_ses (λ s, {| torrents := delete h (torrents s);
                                next_handle := next_handle s |}) w)
  | None => (Raise (RuntimeError "invalid torrent handle used"), w)
  end.

(** The status of a torrent that has just been added with the flags
    [duplicate_is_error | auto_managed | apply_ip_filter]: nothing
    transferred yet, and not paused (the [paused] flag is not passed). *)
Definition fresh_status (info : torrent_info) : torrent_status :=
  {| progress := 0%Q; download_rate := 0; upload_rate := 0;
     state := checking_resume_data;
     total_download := 0; total_upload := 0;
     total_wanted := ti_total_size info;
     num_peers := 0; num_seeds := 0; error := "";
     is_seeding := false; paused := false |}.

Definition has_info_hash (ih : string) (s : session) : bool :=
  existsb (λ ht, bool_decide (t_info_hash ht.2 = ih)) (map_to_list (torrents s)).

(** [ses.add_torrent({'ti': info, 'save_path': ..., 'flags': ...})] *)
Definition add_torrent (info : torrent_info) : M handle := λ w,
  if has_info_hash (ti_info_hash info) (ses w)
  then (Raise (RuntimeError "torrent already exists in session"), w)
  else
    let h := next_handle (ses w) in
    (Ok h,
     with_ses (λ s, {| torrents :=
                         <[h := {| t_info_hash := ti_info_hash info;
                                   t_status := fresh_status info;
                                   t_auto_managed := true;
                                   t_download_limit := None;
                                   t_upload_limit := None;
                                   t_reannounced := false |}]> (torrents s);
                       next_handle := S h |}) w).

(** ** The document store ([db.torrents]) *)

(** [update_one({"id": tid}, {"$set": ...})]: the first document whose
    [id] is [tid] is updated; without a match nothing happens. *)
Fixpoint update_one (tid : string) (set : document → document)
    (c : list document) : list document :=
  match c with
  | [] => []
  | d :: c' =>
      if decide (d_id d = tid) then set d :: c' else d :: update_one tid set c'
  end.

(** [delete_one({"id": tid})] *)
Fixpoint delete_one (tid : string) (c : list document) : list document :=
  match c with
  | [] => []
  | d :: c' => if decide (d_id d = tid) then c' else d :: delete_one tid c'
  end.

(** [find_one({"id": tid})] *)
Fixpoint find_one (tid : string) (c : list document) : option document :=
  match c with
  | [] => None
  | d :: c' => if decide (d_id d = tid) then Some d else find_one tid c'
  end.

(** [insert_one(doc)] *)
Definition insert_one (d : document) (c : list document) : list document := c ++ [d].

(** [count_documents(filter)] *)
Definition count_documents (p : document → bool) (c : list document) : Z :=
  Z.of_nat (length (List.filter p c)).

(** ** [monitor_torrents]: one pass of the monitoring loop *)

(** Python truthiness of a [str]. *)
Definition truthy (s : string) : bool := negb (bool_decide (s = "")).

(** [timedelta(seconds=n)] raises [OverflowError] when the number of days
    is beyond 999999999 in magnitude. *)
Definition timedelta (seconds : Z) : result eta_t :=
  if bool_decide (Z.abs (seconds `div` 86400) ≤ 999999999)
  then Ok (Timedelta seconds)
  else Raise OverflowError.

(** The [stats] dict as first built (lines 125-135), before ['eta']. *)
Definition make_stats (status : torrent_status) : stats :=
  {| s_progress := (progress status * 100)%Q;
     s_download_rate := download_rate status;
     s_upload_rate := upload_rate status;
     s_state := state status;
     s_total_download := total_download status;
     s_total_upload := total_upload status;
     s_num_peers := num_peers status;
     s_num_seeds := num_seeds status;
     s_error := if truthy (error status) then Some (error status) else None;
     s_eta := None |}.

(** [stats['eta'] = eta] *)
Definition with_eta (eta : eta_t) (s : stats) : stats :=
  {| s_progress := s_progress s;
     s_download_rate := s_download_rate s;
     s_upload_rate := s_upload_rate s;
     s_state := s_state s;
     s_total_download := s_total_download s;
     s_total_upload := s_total_upload s;
     s_num_peers := s_num_peers s;
     s_num_seeds := s_num_seeds s;
     s_error := s_error s;
     s_eta := Some eta |}.

(** The [if]/[elif] chain of lines 152-164. *)
Definition derive_status (status : torrent_status) : string :=
  if is_seeding status then "completed"
  else if paused status then "paused"
  else if decide (state status = checking_files) then "checking"
  else if decide (state status = downloading_metadata) then "downloading_metadata"
  else if decide (state status = queued_for_checking) then "queued"
  else if truthy (error status) then "error"
  else "downloading".

(** The [$set] of lines 169-178. *)
Definition set_polled (s : stats) (torrent_status : string) (d : document) : document :=
  {| d_id := d_id d; d_name := d_name d; d_size := d_size d;
     d_progress := s_progress s;
     d_download_rate := s_download_rate s;
     d_upload_rate := s_upload_rate s;
     d_eta := s_eta s;
     d_status := torrent_status;
     d_created_at := d_created_at d;
     d_completed_at := d_completed_at d;
     d_file_path := d_file_path d;
     d_download_speed_limit := d_download_speed_limit d;
     d_upload_speed_limit := d_upload_speed_limit d;
     d_scheduled_start := d_scheduled_start d;
     d_num_peers := Some (s_num_peers s);
     d_num_seeds := Some (s_num_seeds s);
     d_error := Some (s_error s) |}.

(** [{"$set": {"status": v}}], used by the routes and by line 186. *)
Definition set_status (v : string) (d : document) : document :=
  {| d_id := d_id d; d_name := d_name d; d_size := d_size d;
     d_progress := d_progress d;
     d_download_rate := d_download_rate d;
     d_upload_rate := d_upload_rate d;
     d_eta := d_eta d;
     d_status := v;
     d_created_at := d_created_at d;
     d_completed_at := d_completed_at d;
     d_file_path := d_file_path d;
     d_download_speed_limit := d_download_speed_limit d;
     d_upload_speed_limit := d_upload_speed_limit d;
     d_scheduled_start := d_scheduled_start d;
     d_num_peers := d_num_peers d;
     d_num_seeds := d_num_seeds d;
     d_error := d_error d |}.

(** [{"$set": {"completed_at": t}}] *)
Definition set_completed_at (t : Z) (d : document) : document :=
  {| d_id := d_id d; d_name := d_name d; d_size := d_size d;
     d_progress := d_progress d;
     d_download_rate := d_download_rate d;
     d_upload_rate := d_upload_rate d;
     d_eta := d_eta d;
     d_status := d_status d;
     d_created_at := d_created_at d;
     d_completed_at := Some t;
     d_file_path := d_file_path d;
     d_download_speed_limit := d_download_speed_limit d;
     d_upload_speed_limit := d_upload_speed_limit d;
     d_scheduled_start := d_scheduled_start d;
     d_num_peers := d_num_peers d;
     d_num_seeds := d_num_seeds d;
     d_error := d_error d |}.

(** [del torrent_handles[torrent_id]] *)
Definition del_torrent_handle (torrent_id : string) : M unit := λ w,
  match dict_get torrent_id (torrent_handles w) with
  | Some _ => (Ok tt, with_torrent_handles (dict_remove torrent_id) w)
  | None => (Raise (KeyError torrent_id), w)
  end.

(** [n / d] rounded to the nearest integer, a tie going to the even one;
    for [0 ≤ n] and [0 < d]. *)
Definition round_half_even (n d : Z) : Z :=
  let q := n `div` d in
  let r := n `mod` d in
  if bool_decide (2 * r < d) then q
  else if bool_decide (d < 2 * r) then q + 1
  else if Z.even q then q else q + 1.

(** The binary exponent [e] of [a / b]: [2 ^ e ≤ a / b < 2 ^ (e + 1)],
    for [0 < a] and [0 < b]. *)
Definition binade (a b : Z) : Z :=
  Z.log2 a - Z.log2 b
  - (if bool_decide (a * 2 ^ Z.log2 b < b * 2 ^ Z.log2 a) then 1 else 0).

(** [int(a / b)] for Python [int]s [0 < a] and [0 < b].  The true
    division gives the double nearest to the quotient: a significand [m]
    of 53 bits, ties to even, which stands for [m * 2 ^ (e - 52)]; a
    quotient that rounds to [2 ^ 1024] or more raises [OverflowError].
    [int] then truncates.  (Below [2 ^ -1022] a double has fewer bits;
    the truncation is 0 either way.) *)
Definition int_true_div_pos (a b : Z) : result Z :=
  let e := binade a b in
  if bool_decide (e ≤ 52) then
    Ok (round_half_even (a * 2 ^ (52 - e)) b `div` 2 ^ (52 - e))
  else
    let m := round_half_even a (b * 2 ^ (e - 52)) in
    if bool_decide (1024 ≤ (if bool_decide (m = 2 ^ 53) then e + 1 else e))
    then Raise OverflowError
    else Ok (m * 2 ^ (e - 52)).

(** [int(a / b)] for any [int] [a] and [0 < b]. *)
Definition int_true_div (a b : Z) : result Z :=
  if bool_decide (a = 0) then Ok 0
  else if bool_decide (0 < a) then int_true_div_pos a b
  else Z.opp <$> int_true_div_pos (- a) b.

(** Lines 143-149: the value given to [stats['eta']]. *)
Definition eta_of (status : torrent_status) : result eta_t :=
  if bool_decide (0 < download_rate status) then
    let remaining_bytes := total_wanted status - total_download status in
    match int_true_div remaining_bytes (download_rate status) with
    | Ok eta_seconds => timedelta eta_seconds
    | Raise e => Raise e
    end
  else Ok Unknown.

(** The body of [for torrent_id, handle in list(torrent_handles.items())]
    (lines 117-197).  [now] is what [datetime.utcnow()] returns during this
    pass. *)
Definition monitor_entry (now : Z) (entry : string * handle) : M unit :=
  let torrent_id := entry.1 in
  let h := entry.2 in
  valid ← is_valid h;
  if negb valid then
    log (Warning_invalid_handle torrent_id) ;;
    del_torrent_handle torrent_id
  else
    status ← handle_status h;
    let stats0 := make_stats status in
    modify (with_download_stats <[torrent_id := stats0]>) ;;
    when (truthy (error status)) (log (Error_torrent torrent_id (error status))) ;;
    eta ← lift (eta_of status);
    (* [stats] is the object already stored in [download_stats] *)
    let stats1 := with_eta eta stats0 in
    modify (with_download_stats <[torrent_id := stats1]>) ;;
    let torrent_status := derive_status status in
    modify (with_db_torrents (update_one torrent_id (set_polled stats1 torrent_status))) ;;
    when (is_seeding status && Qle_bool 100 (s_progress stats1))
      (modify (with_db_torrents
                 (update_one torrent_id
                    (λ d, set_completed_at now (set_status "completed" d)))) ;;
       log (Info_completed torrent_id)) ;;
    when (negb (Qle_bool (s_progress stats1) 0))
      (log (Info_progress torrent_id stats1)).

(** [await ws.send_text(json.dumps(update_data, default=str))]: the text
    sent is the content of [download_stats] at that moment. *)
Definition send_text (ws : WebSocket) : M unit := λ w,
  if decide (ws ∈ ws_closed w) then (Raise WebSocketDisconnect, w)
  else (Ok tt, with_ws_received (λ l, l ++ [(ws, download_stats w)]) w).

(** The loop of lines 206-210, with its bare [except]. *)
Fixpoint send_to_all (conns disconnected : list WebSocket) : M (list WebSocket) :=
  match conns with
  | [] => mret disconnected
  | ws :: conns' =>
      sent ← try_except (send_text ws ;; mret true) (λ _, mret false);
      send_to_all conns' (if sent : bool then disconnected else disconnected ++ [ws])
  end.

(** [l.remove(x)]: the first occurrence goes; [None] when there is none. *)
Fixpoint list_remove (x : WebSocket) (l : list WebSocket) : option (list WebSocket) :=
  match l with
  | [] => None
  | y :: l' => if decide (y = x) then Some l' else (y ::.) <$> list_remove x l'
  end.

(** [websocket_connections.remove(ws)] *)
Definition websocket_connections_remove (ws : WebSocket) : M unit := λ w,
  match list_remove ws (websocket_connections w) with
  | Some l => (Ok tt, with_websocket_connections (λ _, l) w)
  | None => (Raise ValueError, w)
  end.

(** Lines 199-214: the broadcast of [download_stats]. *)
Definition send_updates : M unit :=
  conns ← gets websocket_connections;
  match conns with
  | [] => mret tt
  | _ =>
      disconnected ← send_to_all conns [];
      for_each websocket_connections_remove disconnected
  end.

(** The [try] block of one iteration of [while True]. *)
Definition monitor_pass (now : Z) : M unit :=
  entries ← gets torrent_handles;
  for_each (monitor_entry now) entries ;;
  send_updates.

(** One iteration of [while True], with its [except Exception]; the
    result is the number of seconds the loop then sleeps. *)
Definition monitor_tick (now : Z) (w : world) : Z * world :=
  match monitor_pass now w with
  | (Ok _, w') => (2, w')
  | (Raise e, w') => (5, with_logger (λ l, l ++ [Error_monitor e]) w')
  end.

(** The loop run for the passes that happen at the given instants, the
    engine and the peers being left as they are in between. *)
Definition monitor_torrents (instants : list Z) (w : world) : world :=
  foldl (λ w now, (monitor_tick now w).2) w instants.

(** ** The websocket endpoint *)

(** The entry of [websocket_endpoint], up to its receive loop:
    [await websocket.accept(); websocket_connections.append(websocket)] *)
Definition websocket_endpoint (websocket : WebSocket) : M unit :=
  modify (with_websocket_connections (λ l, l ++ [websocket])).

(** ** The routes *)

(** [s.endswith(suffix)] *)
Definition endswith (s suffix : string) : bool :=
  let n := String.length s in
  let m := String.length suffix in
  bool_decide (m ≤ n)%nat && bool_decide (String.substring (n - m) m s = suffix).

Record UploadFile : Type := {
  filename : string;
  file_content : string
}.

(** The [params] dict of [add_torrent_to_session], read with [params.get]. *)
Record params_t : Type := {
  p_download_speed_limit : option Z;
  p_upload_speed_limit : option Z;
  p_scheduled_start : option Z
}.

(** [if params.get(key): set(params[key])]: a limit that is absent,
    [None] or 0 is not applied. *)
Definition when_limit (o : option Z) (set : Z → M unit) : M unit :=
  match o with
  | Some v => when (negb (bool_decide (v = 0))) (set v)
  | None => mret tt
  end.

(** [TorrentInfo(id=..., name=..., size=..., download_speed_limit=...,
    upload_speed_limit=...).dict()], the other fields at their defaults. *)
Definition TorrentInfo (id name : string) (size : Z)
    (download_speed_limit upload_speed_limit : option Z) (utcnow : Z) : document :=
  {| d_id := id; d_name := name; d_size := size;
     d_progress := 0%Q; d_download_rate := 0; d_upload_rate := 0;
     d_eta := None; d_status := "queued";
     d_created_at := utcnow; d_completed_at := None; d_file_path := None;
     d_download_speed_limit := download_speed_limit;
     d_upload_speed_limit := upload_speed_limit;
     d_scheduled_start := None;
     d_num_peers := None; d_num_seeds := None; d_error := None |}.

Record SystemStats : Type := {
  total_downloads : Z;
  active_downloads : Z;
  completed_downloads : Z;
  total_downloaded : Z;
  total_uploaded : Z;
  global_download_rate : Z;
  global_upload_rate : Z
}.

(** [sum(stats.get(key, 0) for stats in download_stats.values())] *)
Definition sum_rates (rate : stats → Z) (m : gmap string stats) : Z :=
  map_fold (λ _ s acc, rate s + acc) 0 m.

Section Routes.
(** [lt.torrent_info(torrent_data)]: libtorrent's parser of the
    descriptor, which raises on bytes it cannot parse. *)
Variable lt_torrent_info : string → result torrent_info.

(** Lines 239-275.  [now] is [datetime.utcnow()]. *)
Definition add_torrent_to_session (torrent_data torrent_id : string)
    (params : params_t) (now : Z) : M bool :=
  try_except
    (info ← lift (lt_torrent_info torrent_data);
     h ← add_torrent info;
     when_limit (p_download_speed_limit params) (λ v, set_download_limit v h) ;;
     when_limit (p_upload_speed_limit params) (λ v, set_upload_limit v h) ;;
     force_reannounce h ;;
     when (match p_scheduled_start params with
           | Some t => bool_decide (now < t)
           | None => false
           end)
       (handle_pause h) ;;
     modify (with_torrent_handles (dict_set torrent_id h)) ;;
     log (Info_added (ti_name info)) ;;
     mret true)
    (λ e, log (Error_adding e) ;; mret false).

(** Lines 278-325.  [uuid4] is the identifier drawn by [uuid.uuid4()]
    and [now] the creation time. *)
Definition upload_torrent (file : UploadFile)
    (download_speed_limit upload_speed_limit : option Z)
    (uuid4 : string) (now : Z) : M document :=
  if negb (endswith (filename file) ".torrent") then
    raise (HTTPException 400 (Literal "File must be a .torrent file"))
  else
    try_except
      (let torrent_data := file_content file in
       info ← lift (lt_torrent_info torrent_data);
       let torrent_id := uuid4 in
       let torrent_info :=
         TorrentInfo torrent_id (ti_name info) (ti_total_size info)
           download_speed_limit upload_speed_limit now in
       modify (with_db_torrents (insert_one torrent_info)) ;;
       let params := {| p_download_speed_limit := download_speed_limit;
                        p_upload_speed_limit := upload_speed_limit;
                        p_scheduled_start := None |} in
       success ← add_torrent_to_session torrent_data torrent_id params now;
       if negb success then
         raise (HTTPException 500 (Literal "Failed to add torrent"))
       else mret torrent_info)
      (λ e, log (Error_uploading e) ;; raise (HTTPException 500 (Str e))).
End Routes.

(** Lines 332-345. *)
Definition pause_torrent (torrent_id : string) : M string :=
  registry ← gets torrent_handles;
  match dict_get torrent_id registry with
  | None => raise (HTTPException 404 (Literal "Torrent not found"))
  | Some h =>
      handle_pause h ;;
      modify (with_db_torrents (update_one torrent_id (set_status "paused"))) ;;
      mret "Torrent paused"
  end.

(** Lines 347-360. *)
Definition resume_torrent (torrent_id : string) : M string :=
  registry ← gets torrent_handles;
  match dict_get torrent_id registry with
  | None => raise (HTTPException 404 (Literal "Torrent not found"))
  | Some h =>
      handle_resume h ;;
      modify (with_db_torrents (update_one torrent_id (set_status "downloading"))) ;;
      mret "Torrent resumed"
  end.

(** Lines 362-373. *)
Definition delete_torrent (torrent_id : string) : M string :=
  registry ← gets torrent_handles;
  match dict_get torrent_id registry with
  | Some h =>
      remove_torrent h ;;
      del_torrent_handle torrent_id ;;
      in_stats ← gets (λ w, bool_decide (is_Some (download_stats w !! torrent_id)));
      when in_stats (modify (with_download_stats (delete torrent_id)))
  | None => mret tt
  end ;;
  modify (with_db_torrents (delete_one torrent_id)) ;;
  mret "Torrent deleted".

(** Lines 398-427. *)
Definition get_system_stats : M SystemStats :=
  c ← gets db_torrents;
  stats ← gets download_stats;
  mret {| total_downloads := count_documents (λ _, true) c;
          active_downloads :=
            count_documents
              (λ d, bool_decide (d_status d = "downloading")
                    || bool_decide (d_status d = "queued")) c;
          completed_downloads :=
            count_documents (λ d, bool_decide (d_status d = "completed")) c;
          total_downloaded := foldr (λ d acc, d_size d + acc) 0 c;
          total_uploaded := 0;
          global_download_rate := sum_rates s_download_rate stats;
          global_upload_rate := sum_rates s_upload_rate stats |}.

(** ** The status rules in the words of the specification *)

(** The rules in priority order: a test on the snapshot and the status it
    gives; the first rule whose test holds wins. *)
Definition status_rules : list ((torrent_status → bool) * string) :=
  [ (is_seeding, "completed");
    (paused, "paused");
    ((λ s, bool_decide (state s = checking_files)), "checking");
    ((λ s, bool_decide (state s = downloading_metadata)), "downloading_metadata");
    ((λ s, bool_decide (state s = queued_for_checking)), "queued");
    ((λ s, negb (String.eqb (error s) "")), "error") ].

Fixpoint first_match (rules : list ((torrent_status → bool) * string))
    (otherwise : string) (s : torrent_status) : string :=
  match rules with
  | [] => otherwise
  | (test, v) :: rules' => if test s then v else first_match rules' otherwise s
  end.

(** ** Auxiliary definitions for the statements *)

(** What one pass does to the document of a transfer whose snapshot is
    [status] and whose [eta] was computed: the two [$set]s of lines
    167-189 in a row. *)
Definition polled (now : Z) (status : torrent_status) (eta : eta_t)
    (d : document) : document :=
  let d1 := set_polled (with_eta eta (make_stats status)) (derive_status status) d in
  if is_seeding status && Qle_bool 100 (progress status * 100)
  then set_completed_at now (set_status "completed" d1)
  else d1.

(** Removing the elements of [xs] one after the other, as the loop of
    lines 213-214 does. *)
Fixpoint remove_each (xs l : list WebSocket) : option (list WebSocket) :=
  match xs with
  | [] => Some l
  | x :: xs' => list_remove x l ≫= remove_each xs'
  end.

(** The connections that are still open, among [conns]. *)
Definition still_open (w : world) (conns : list WebSocket) : list WebSocket :=
  filter (λ ws, ws ∉ ws_closed w) conns.

(** The far end of a websocket goes away. *)
Definition peer_closes (ws : WebSocket) (w : world) : world :=
  {| torrent_handles := torrent_handles w;
     download_stats := download_stats w;
     websocket_connections := websocket_connections w;
     ses := ses w; db_torrents := db_torrents w; logger := logger w;
     ws_closed := {[ ws ]} ∪ ws_closed w; ws_received := ws_received w |}.

(** The engine drops a torrent on its own: its handles become invalid. *)
Definition engine_drops (h : handle) (w : world) : world :=
  with_ses (λ s, {| torrents := delete h (torrents s);
                    next_handle := next_handle s |}) w.

(** The engine manages its queue on its own: an auto-managed torrent that
    was paused through its handle is resumed. *)
Definition engine_auto_manages (h : handle) (w : world) : world :=
  with_ses (λ s, {| torrents :=
                      alter (λ t, if t_auto_managed t then set_paused false t else t)
                        h (torrents s);
                    next_handle := next_handle s |}) w.

(** The world after an entry with a live handle has been processed to its
    end, [eta] being the value computed for [stats['eta']]. *)
Definition entry_ok_world (now : Z) (tid : string) (status : torrent_status)
    (eta : eta_t) (w : world) : world :=
  (if negb (Qle_bool (progress status * 100) 0)
   then with_logger (λ l, l ++ [Info_progress tid (with_eta eta (make_stats status))])
   else id)
    ((if is_seeding status && Qle_bool 100 (progress status * 100)
      then with_logger (λ l, l ++ [Info_completed tid])
      else id)
       (with_db_torrents (update_one tid (polled now status eta))
          (with_download_stats <[tid := with_eta eta (make_stats status)]>
             ((if truthy (error status)
               then with_logger (λ l, l ++ [Error_torrent tid (error status)])
               else id) w)))).

(** The world after an entry whose [eta] raised. *)
Definition entry_raised_world (tid : string) (status : torrent_status)
    (w : world) : world :=
  (if truthy (error status)
   then with_logger (λ l, l ++ [Error_torrent tid (error status)])
   else id)
    (with_download_stats <[tid := make_stats status]> w).


(** The limit that [add_torrent_to_session] hands to the engine for a
    value of [params]: none when it is absent, [None] or 0 (line 257). *)
Definition limit_requested (o : option Z) : option Z :=
  match o with
  | Some v => if bool_decide (v = 0) then None else Some v
  | None => None
  end.

(** Whether the engine holds the transfer [tid] paused. *)
Definition engine_paused (tid : string) (w : world) : option bool :=
  h ← dict_get tid (torrent_handles w);
  t ← torrents (ses w) !! h;
  Some (paused (t_status t)).

(** ** Sample data, on which the definitions are run *)

(** A stand-in for libtorrent's parser: a descriptor is a bencoded
    dictionary, so it starts with [d]; what follows is taken as the name
    and the info-hash. *)
Definition sample_torrent_info (torrent_data : string) : result torrent_info :=
  match torrent_data with
  | String "d"%char name =>
      Ok {| ti_name := name; ti_total_size := 1000; ti_info_hash := name |}
  | _ => Raise (RuntimeError "not a valid torrent file")
  end.

Definition movie_file : UploadFile :=
  {| filename := "movie.torrent"; file_content := "dmovie" |}.

Definition garbage_file : UploadFile :=
  {| filename := "x.torrent"; file_content := "garbage" |}.

Definition status_downloading : torrent_status :=
  {| progress := (1 # 2)%Q; download_rate := 100; upload_rate := 10;
     state := downloading; total_download := 500; total_upload := 50;
     total_wanted := 1000; num_peers := 4; num_seeds := 2; error := "";
     is_seeding := false; paused := false |}.

Definition status_seeding : torrent_status :=
  {| progress := 1%Q; download_rate := 0; upload_rate := 10;
     state := seeding; total_download := 1000; total_upload := 50;
     total_wanted := 1000; num_peers := 4; num_seeds := 2; error := "";
     is_seeding := true; paused := false |}.

(** 100 TB left at one byte per second: more seconds than a [timedelta]
    holds. *)
Definition status_crawling : torrent_status :=
  {| progress := 0%Q; download_rate := 1; upload_rate := 0;
     state := downloading; total_download := 0; total_upload := 0;
     total_wanted := 100000000000000; num_peers := 1; num_seeds := 0;
     error := ""; is_seeding := false; paused := false |}.

Definition sample_torrent (info_hash : string) (status : torrent_status) : torrent :=
  {| t_info_hash := info_hash; t_status := status; t_auto_managed := true;
     t_download_limit := None; t_upload_limit := None; t_reannounced := true |}.

Definition w_empty : world :=
  {| torrent_handles := []; download_stats := ∅; websocket_connections := [];
     ses := {| torrents := ∅; next_handle := 0%nat |};
     db_torrents := []; logger := []; ws_closed := ∅; ws_received := [] |}.

(** Two registered transfers ["a"] and ["b"] and one subscriber. *)
Definition w_pair (status_a status_b : torrent_status) : world :=
  {| torrent_handles := [("a", 0%nat); ("b", 1%nat)];
     download_stats := ∅;
     websocket_connections := [7%nat];
     ses := {| torrents := {[ 0%nat := sample_torrent "ha" status_a;
                              1%nat := sample_torrent "hb" status_b ]};
               next_handle := 2%nat |};
     db_torrents := [TorrentInfo "a" "A" 1000 None None 1;
                     TorrentInfo "b" "B" 1000 None None 2];
     logger := []; ws_closed := ∅; ws_received := [] |}.

(** ["a"] is seeding; passes at the instants 10 and 20. *)
Definition w_seeding : world := w_pair status_seeding status_downloading.
Definition w_seeding_10 : world := (monitor_tick 10 w_seeding).2.

(** The [eta] of ["a"] overflows; ["b"] is an ordinary download. *)
Definition w_crawling : world := w_pair status_crawling status_downloading.

(** Both are polled at 10, then the engine drops ["a"], then two passes. *)
Definition w_polled : world := (monitor_tick 10 (w_pair status_downloading status_downloading)).2.
Definition w_dropped : world := engine_drops 0%nat w_polled.
Definition w_pruned : world := (monitor_tick 12 w_dropped).2.
Definition w_later : world := (monitor_tick 14 w_pruned).2.

(** The same descriptor uploaded twice: the second [add_torrent] is
    refused as a duplicate, which leaves the record ["id2"] an orphan. *)
Definition w_uploaded : world :=
  (upload_torrent sample_torrent_info movie_file None None "id1" 1000 w_empty).2.
Definition w_orphan : world :=
  (upload_torrent sample_torrent_info movie_file None None "id2" 1001 w_uploaded).2.

(** Three more subscribers connect, the second of which then goes away
    without the server having noticed. *)
Definition w_subscribers : world :=
  peer_closes 2%nat (for_each websocket_endpoint [1; 2; 3]%nat w_polled).2.

(** ** The other routes *)

(** The [except WebSocketDisconnect] branch of [websocket_endpoint]
    (lines 235-236), taken when the receive loop learns that the peer has
    gone: [websocket_connections.remove(websocket)]. *)
Definition websocket_disconnected (websocket : WebSocket) : M unit :=
  websocket_connections_remove websocket.

(** The body of a [PUT /torrents/{id}] request. *)
Record TorrentUpdate : Type := {
  u_download_speed_limit : option Z;
  u_upload_speed_limit : option Z;
  u_scheduled_start : option Z
}.

(** [{"$set": update_dict}], where [update_dict] holds the fields of the
    request that are not [None] (line 389). *)
Definition set_update_dict (u : TorrentUpdate) (d : document) : document :=
  {| d_id := d_id d; d_name := d_name d; d_size := d_size d;
     d_progress := d_progress d;
     d_download_rate := d_download_rate d;
     d_upload_rate := d_upload_rate d;
     d_eta := d_eta d;
     d_status := d_status d;
     d_created_at := d_created_at d;
     d_completed_at := d_completed_at d;
     d_file_path := d_file_path d;
     d_download_speed_limit :=
       match u_download_speed_limit u with
       | Some v => Some v
       | None => d_download_speed_limit d
       end;
     d_upload_speed_limit :=
       match u_upload_speed_limit u with
       | Some v => Some v
       | None => d_upload_speed_limit d
       end;
     d_scheduled_start :=
       match u_scheduled_start u with
       | Some v => Some v
       | None => d_scheduled_start d
       end;
     d_num_peers := d_num_peers d;
     d_num_seeds := d_num_seeds d;
     d_error := d_error d |}.

(** Truthiness of [update_dict]: some field of the request is set. *)
Definition update_dict_nonempty (u : TorrentUpdate) : bool :=
  bool_decide (is_Some (u_download_speed_limit u))
  || bool_decide (is_Some (u_upload_speed_limit u))
  || bool_decide (is_Some (u_scheduled_start u)).

(** [if value is not None: set(value)] *)
Definition when_some (o : option Z) (set : Z → M unit) : M unit :=
  match o with
  | Some v => set v
  | None => mret tt
  end.

(** Lines 375-396. *)
Definition update_torrent (torrent_id : string) (update_data : TorrentUpdate) : M string :=
  registry ← gets torrent_handles;
  match dict_get torrent_id registry with
  | None => raise (HTTPException 404 (Literal "Torrent not found"))
  | Some h =>
      when_some (u_download_speed_limit update_data) (λ v, set_download_limit v h) ;;
      when_some (u_upload_speed_limit update_data) (λ v, set_upload_limit v h) ;;
      when (update_dict_nonempty update_data)
        (modify (with_db_torrents
                   (update_one torrent_id (set_update_dict update_data)))) ;;
      mret "Torrent updated"
  end.

(** The order of [sort("created_at", -1)]: newest first. *)
Definition newer_first (d1 d2 : document) : Prop := d_created_at d2 ≤ d_created_at d1.

Global Instance newer_first_dec d1 d2 : Decision (newer_first d1 d2).
Proof. unfold newer_first. apply _. Defined.

Global Instance newer_first_total : Total newer_first.
Proof. intros d1 d2. unfold newer_first. lia. Qed.

Global Instance newer_first_trans : Transitive newer_first.
Proof. intros d1 d2 d3. unfold newer_first. lia. Qed.

(** The model [TorrentInfo] built from a stored document (line 330): the
    keys that are not fields of the model ([num_peers], [num_seeds],
    [error]) are dropped. *)
Definition TorrentInfo_of (d : document) : document :=
  {| d_id := d_id d; d_name := d_name d; d_size := d_size d;
     d_progress := d_progress d;
     d_download_rate := d_download_rate d;
     d_upload_rate := d_upload_rate d;
     d_eta := d_eta d;
     d_status := d_status d;
     d_created_at := d_created_at d;
     d_completed_at := d_completed_at d;
     d_file_path := d_file_path d;
     d_download_speed_limit := d_download_speed_limit d;
     d_upload_speed_limit := d_upload_speed_limit d;
     d_scheduled_start := d_scheduled_start d;
     d_num_peers := None; d_num_seeds := None; d_error := None |}.

(** Lines 327-330: [find().sort("created_at", -1).to_list(1000)].  The
    store is free to order documents created at the same instant as it
    likes; here they keep the order of the collection. *)
Definition get_torrents : M (list document) :=
  c ← gets db_torrents;
  mret (TorrentInfo_of <$> take 1000 (merge_sort newer_first c)).

(** ** Further auxiliary definitions *)

(** What the server holds about one transfer: its [download_stats]
    entry, its handle and its record. *)
Definition slice (tid : string) (w : world)
    : option stats * option handle * option document :=
  (download_stats w !! tid,
   dict_get tid (torrent_handles w),
   find_one tid (db_torrents w)).

(** The fields of a record that are set at creation or by an update
    request, and that polling does not own. *)
Definition same_identity (d d' : document) : Prop :=
  d_id d' = d_id d ∧ d_name d' = d_name d ∧ d_size d' = d_size d ∧
  d_created_at d' = d_created_at d ∧ d_file_path d' = d_file_path d ∧
  d_download_speed_limit d' = d_download_speed_limit d ∧
  d_upload_speed_limit d' = d_upload_speed_limit d ∧
  d_scheduled_start d' = d_scheduled_start d.

(** Whether the handle still refers to a torrent of the session. *)
Definition live (w : world) (e : string * handle) : Prop :=
  is_Some (torrents (ses w) !! e.2).

Global Instance live_dec w e : Decision (live w e).
Proof. unfold live. apply _. Defined.

(** * Properties *)

(** Unfolding the monad. *)
Ltac run :=
  unfold mbind, M_bind, mret, M_ret, gets, modify, raise, lift, try_except, log.

(** ** Records, dictionaries and the store *)

Lemma world_eta w :
  {| torrent_handles := torrent_handles w; download_stats := download_stats w;
     websocket_connections := websocket_connections w; ses := ses w;
     db_torrents := db_torrents w; logger := logger w;
     ws_closed := ws_closed w; ws_received := ws_received w |} = w.
Proof. by destruct w. Qed.

Lemma truthy_eqb s : truthy s = negb (String.eqb s "").
Proof.
  unfold truthy. destruct (String.eqb_spec s "") as [->|Hne]; [done|].
  by rewrite bool_decide_eq_false_2.
Qed.

Section DictFacts.
Context {V : Type}.
Implicit Types (d : list (string * V)) (k : string).

Lemma dict_get_remove_eq k d : dict_get k (dict_remove k d) = None.
Proof.
  induction d as [|[k' v] d IH]; [done|]. unfold dict_remove in *. cbn.
  case_bool_decide; cbn; [done|]. by rewrite decide_False.
Qed.

Lemma dict_get_remove_ne k k' d :
  k ≠ k' → dict_get k' (dict_remove k d) = dict_get k' d.
Proof.
  intros Hne. induction d as [|[k1 v] d IH]; [done|]. unfold dict_remove in *. cbn.
  case_bool_decide; cbn; subst.
  - by rewrite decide_False.
  - by rewrite IH.
Qed.

Lemma dict_get_set_eq k v d : dict_get k (dict_set k v d) = Some v.
Proof.
  induction d as [|[k1 v1] d IH]; cbn.
  - by rewrite decide_True.
  - case_decide; cbn; [by rewrite decide_True|by rewrite decide_False].
Qed.

Lemma dict_get_set_ne k k' v d :
  k ≠ k' → dict_get k' (dict_set k v d) = dict_get k' d.
Proof.
  intros Hne. induction d as [|[k1 v1] d IH]; cbn.
  - by rewrite decide_False.
  - destruct (decide (k1 = k)) as [->|Hk]; cbn.
    + by rewrite !decide_False.
    + by rewrite IH.
Qed.

(** A key that is not bound labels no entry. *)
Lemma dict_get_None_entry k d e : dict_get k d = None → e ∈ d → e.1 ≠ k.
Proof.
  induction d as [|[k1 v1] d IH]; cbn; intros Hget Hin.
  - by apply elem_of_nil in Hin.
  - destruct (decide (k1 = k)) as [->|Hk]; [done|].
    apply elem_of_cons in Hin as [->|Hin]; [done|by apply IH].
Qed.
(** Every entry's key is bound. *)
Lemma dict_get_entry d e : e ∈ d → is_Some (dict_get e.1 d).
Proof.
  induction d as [|[k v] d IH]; intros Hin; [by apply elem_of_nil in Hin|].
  cbn. destruct (decide (k = e.1)) as [|Hne]; [by eexists|].
  apply elem_of_cons in Hin as [->|Hin]; [done|by apply IH].
Qed.
End DictFacts.

Section StoreFacts.
Implicit Types (c : list document) (tid k : string) (f g : document → document).

Lemma find_one_None tid c : find_one tid c = None → tid ∉ d_id <$> c.
Proof.
  induction c as [|d c IH]; cbn; intros H.
  - apply not_elem_of_nil.
  - destruct (decide (d_id d = tid)) as [|Hne]; [done|].
    apply not_elem_of_cons. split; [done|by apply IH].
Qed.

Lemma not_elem_find_one tid c : tid ∉ d_id <$> c → find_one tid c = None.
Proof.
  induction c as [|d c IH]; cbn; [done|].
  intros [Hne Hnotin]%not_elem_of_cons.
  rewrite decide_False by done. by apply IH.
Qed.

Lemma find_one_delete_one_ne tid k c :
  k ≠ tid → find_one k (delete_one tid c) = find_one k c.
Proof.
  intros Hne. induction c as [|d c IH]; [done|]. cbn.
  destruct (decide (d_id d = tid)) as [Heq|Hn].
  - rewrite decide_False; [done|congruence].
  - cbn. by rewrite IH.
Qed.

Lemma find_one_delete_one tid c :
  NoDup (d_id <$> c) → find_one tid (delete_one tid c) = None.
Proof.
  induction c as [|d c IH]; [done|]. cbn. intros [Hnotin Hnd]%NoDup_cons.
  destruct (decide (d_id d = tid)) as [<-|Hn].
  - by apply not_elem_find_one.
  - cbn. rewrite decide_False by done. by apply IH.
Qed.

Lemma find_one_update_one_ne tid k f c :
  (∀ d, d_id (f d) = d_id d) → tid ≠ k →
  find_one tid (update_one k f c) = find_one tid c.
Proof.
  intros Hf Hne. induction c as [|d c IH]; [done|]. cbn.
  destruct (decide (d_id d = k)) as [Hk|Hk]; cbn.
  - rewrite Hf. rewrite !decide_False; [done|congruence|congruence].
  - by rewrite IH.
Qed.

Lemma find_one_update_one_eq k f c :
  (∀ d, d_id (f d) = d_id d) →
  find_one k (update_one k f c) = f <$> find_one k c.
Proof.
  intros Hf. induction c as [|d c IH]; [done|]. cbn.
  destruct (decide (d_id d = k)) as [Hk|Hk]; cbn.
  - rewrite Hf. by rewrite decide_True.
  - rewrite decide_False by done. by rewrite IH.
Qed.

Lemma update_one_twice k f g c :
  (∀ d, d_id (f d) = d_id d) →
  update_one k g (update_one k f c) = update_one k (λ d, g (f d)) c.
Proof.
  intros Hf. induction c as [|d c IH]; [done|]. cbn.
  destruct (decide (d_id d = k)) as [Hk|Hk]; cbn.
  - rewrite Hf. by rewrite decide_True.
  - rewrite decide_False by done. by rewrite IH.
Qed.
End StoreFacts.

Lemma sum_rates_delete rate tid s (m : gmap string stats) :
  m !! tid = Some s → sum_rates rate m = rate s + sum_rates rate (delete tid m).
Proof.
  intros H. unfold sum_rates.
  apply (map_fold_delete_L (λ _ s acc, rate s + acc)); [|done].
  intros. lia.
Qed.

Lemma polled_id now status eta d : d_id (polled now status eta d) = d_id d.
Proof. unfold polled. by destruct (_ && _). Qed.


(** The status a pass stores is the one [derive_status] gives: the second
    [$set] only repeats ["completed"]. *)
Lemma polled_status now status eta d :
  d_status (polled now status eta d) = derive_status status.
Proof.
  unfold polled, derive_status. by destruct (is_seeding status), (Qle_bool _ _).
Qed.

(** ** Loops *)

Lemma for_each_cons {A} (body : A → M unit) x l w :
  for_each body (x :: l) w =
    match body x w with
    | (Ok _, w1) => for_each body l w1
    | (Raise e, w1) => (Raise e, w1)
    end.
Proof. reflexivity. Qed.

Lemma for_each_app {A} (body : A → M unit) l1 l2 w :
  for_each body (l1 ++ l2) w =
    match for_each body l1 w with
    | (Ok _, w1) => for_each body l2 w1
    | (Raise e, w1) => (Raise e, w1)
    end.
Proof.
  revert w. induction l1 as [|x l1 IH]; intros w; [done|].
  cbn [app]. rewrite !for_each_cons.
  destruct (body x w) as [[[]|e] w1]; [apply IH|done].
Qed.

(** An invariant of the body is an invariant of the loop, however the
    loop ends. *)
Lemma for_each_invariant {A} (P : world → Prop) (body : A → M unit) l :
  (∀ x w, x ∈ l → P w → P (body x w).2) →
  ∀ w, P w → P (for_each body l w).2.
Proof.
  induction l as [|x l IH]; intros Hbody w HP; [done|].
  rewrite for_each_cons.
  pose proof (Hbody x w (list_elem_of_here _ _) HP) as H1.
  destruct (body x w) as [[[]|e] w1]; cbn in *; [|done].
  apply IH; [|done]. intros y w2 Hy. apply Hbody. by apply list_elem_of_further.
Qed.

(** ** The broadcast *)

Lemma send_to_all_run conns : ∀ disconnected w,
  send_to_all conns disconnected w =
    (Ok (disconnected ++ filter (λ ws, ws ∈ ws_closed w) conns),
     with_ws_received
       (λ l, l ++ ((λ ws, (ws, download_stats w)) <$> still_open w conns)) w).
Proof.
  induction conns as [|ws conns IH]; intros disconnected w.
  - cbn. unfold mret, M_ret, with_ws_received. rewrite !app_nil_r.
    by rewrite world_eta.
  - cbn [send_to_all]. unfold mbind, M_bind, try_except, send_text, mret, M_ret.
    unfold still_open. rewrite !filter_cons.
    destruct (decide (ws ∈ ws_closed w)) as [Hc|Ho].
    + rewrite decide_False by (by intros ?).
      rewrite IH. by rewrite <- app_assoc.
    + rewrite decide_True by done.
      rewrite IH. cbn. unfold with_ws_received; cbn.
      by rewrite <- app_assoc.
Qed.

Lemma remove_each_cons_notin xs : ∀ l l' y,
  y ∉ xs → remove_each xs l = Some l' → remove_each xs (y :: l) = Some (y :: l').
Proof.
  induction xs as [|x xs IH]; intros l l' y Hy H; cbn in *.
  - by simplify_eq.
  - apply not_elem_of_cons in Hy as [Hne Hy].
    rewrite decide_False by done.
    destruct (list_remove x l) as [l1|] eqn:E; cbn in *; [|done].
    by apply IH.
Qed.

(** Every connection that failed is still in the list when it is removed. *)
Lemma remove_each_closed (closed : gset nat) l :
  remove_each (filter (λ ws, ws ∈ closed) l) l = Some (filter (λ ws, ws ∉ closed) l).
Proof.
  induction l as [|x l IH]; [done|].
  rewrite !filter_cons.
  destruct (decide (x ∈ closed)) as [Hc|Ho].
  - rewrite decide_False by (by intros ?).
    cbn. by rewrite decide_True.
  - rewrite decide_True by done.
    apply remove_each_cons_notin; [|done].
    intros Hin. by apply list_elem_of_filter in Hin as [? _].
Qed.

Lemma for_each_remove xs : ∀ w l,
  remove_each xs (websocket_connections w) = Some l →
  for_each websocket_connections_remove xs w =
    (Ok tt, with_websocket_connections (λ _, l) w).
Proof.
  induction xs as [|x xs IH]; intros w l H; cbn in *.
  - simplify_eq. unfold mret, M_ret, with_websocket_connections. by rewrite world_eta.
  - unfold mbind, M_bind, websocket_connections_remove.
    destruct (list_remove x (websocket_connections w)) as [l1|] eqn:E; cbn in *; [|done].
    by rewrite (IH _ l).
Qed.

(** The broadcast in closed form. *)
Lemma send_updates_run w :
  send_updates w =
    (Ok tt,
     with_websocket_connections (still_open w)
       (with_ws_received
          (λ l, l ++ ((λ ws, (ws, download_stats w)) <$>
                        still_open w (websocket_connections w))) w)).
Proof.
  unfold send_updates, mbind, M_bind, gets.
  destruct (websocket_connections w) as [|ws conns] eqn:E.
  - destruct w; cbn in *; subst.
    unfold mret, M_ret, with_websocket_connections, with_ws_received; cbn.
    by rewrite app_nil_r.
  - rewrite send_to_all_run. cbn [app].
    rewrite (for_each_remove _ _ (still_open w (ws :: conns))).
    + unfold with_websocket_connections, with_ws_received; cbn. by rewrite E.
    + cbn [websocket_connections with_ws_received]. rewrite E.
      apply remove_each_closed.
Qed.

(** ** One entry of a pass *)

Lemma monitor_entry_invalid now tid h w :
  torrents (ses w) !! h = None →
  monitor_entry now (tid, h) w =
    del_torrent_handle tid (with_logger (λ l, l ++ [Warning_invalid_handle tid]) w).
Proof.
  intros H. unfold monitor_entry, is_valid. run. cbn.
  rewrite bool_decide_eq_false_2; [done|]. rewrite H. by intros [? ?].
Qed.

Lemma monitor_entry_raises now tid h w t x :
  torrents (ses w) !! h = Some t →
  eta_of (t_status t) = Raise x →
  monitor_entry now (tid, h) w = (Raise x, entry_raised_world tid (t_status t) w).
Proof.
  intros H Hx. unfold monitor_entry, is_valid, handle_status. run. cbn.
  rewrite bool_decide_eq_true_2 by (by rewrite H). cbn. rewrite H, Hx.
  unfold entry_raised_world. by destruct (truthy _).
Qed.

Lemma monitor_entry_ok now tid h w t eta :
  torrents (ses w) !! h = Some t →
  eta_of (t_status t) = Ok eta →
  monitor_entry now (tid, h) w = (Ok tt, entry_ok_world now tid (t_status t) eta w).
Proof.
  intros H Hx. unfold monitor_entry, is_valid, handle_status. run. cbn.
  rewrite bool_decide_eq_true_2 by (by rewrite H). cbn. rewrite H, Hx.
  unfold entry_ok_world, polled. destruct w; cbn.
  destruct (truthy _), (is_seeding _), (Qle_bool 100 _), (Qle_bool _ 0); cbn;
    unfold with_logger, with_download_stats, with_db_torrents; cbn;
    rewrite ?insert_insert_eq, ?update_one_twice by done; reflexivity.
Qed.

(** The three ways an entry can go: a dead handle, an [eta] that
    overflows, or a full poll. *)
Lemma monitor_entry_cases now tid h w :
  (torrents (ses w) !! h = None ∧
   monitor_entry now (tid, h) w =
     del_torrent_handle tid (with_logger (λ l, l ++ [Warning_invalid_handle tid]) w)) ∨
  (∃ t x, torrents (ses w) !! h = Some t ∧ eta_of (t_status t) = Raise x ∧
     monitor_entry now (tid, h) w = (Raise x, entry_raised_world tid (t_status t) w)) ∨
  (∃ t eta, torrents (ses w) !! h = Some t ∧ eta_of (t_status t) = Ok eta ∧
     monitor_entry now (tid, h) w = (Ok tt, entry_ok_world now tid (t_status t) eta w)).
Proof.
  destruct (torrents (ses w) !! h) as [t|] eqn:E.
  - destruct (eta_of (t_status t)) as [eta|x] eqn:Ex.
    + right; right. exists t, eta. eauto using monitor_entry_ok.
    + right; left. exists t, x. eauto using monitor_entry_raises.
  - left. eauto using monitor_entry_invalid.
Qed.

(** An entry leaves the engine and the subscribers alone, and touches
    nothing that belongs to another transfer. *)
Lemma monitor_entry_frame now e w :
  ses (monitor_entry now e w).2 = ses w ∧
  websocket_connections (monitor_entry now e w).2 = websocket_connections w ∧
  ws_closed (monitor_entry now e w).2 = ws_closed w ∧
  ws_received (monitor_entry now e w).2 = ws_received w ∧
  (∀ tid, tid ≠ e.1 →
     download_stats (monitor_entry now e w).2 !! tid = download_stats w !! tid ∧
     dict_get tid (torrent_handles (monitor_entry now e w).2)
       = dict_get tid (torrent_handles w) ∧
     find_one tid (db_torrents (monitor_entry now e w).2)
       = find_one tid (db_torrents w)).
Proof.
  destruct e as [k h]. cbn.
  destruct (monitor_entry_cases now k h w)
    as [[_ ->]|[(t & x & _ & _ & ->)|(t & eta & _ & _ & ->)]]; cbn.
  - unfold del_torrent_handle; cbn.
    destruct (dict_get k (torrent_handles w)); cbn; split_and!; try done.
    intros tid Hne. split_and!; try done. by apply dict_get_remove_ne.
  - unfold entry_raised_world.
    destruct (truthy _); cbn; split_and!; try done;
      intros tid Hne; split_and!; try done; by rewrite lookup_insert_ne.
  - unfold entry_ok_world.
    destruct (truthy _), (is_seeding _ && _), (negb _); cbn; split_and!; try done;
      intros tid Hne; (split_and!; [by rewrite lookup_insert_ne|done|]);
      apply find_one_update_one_ne; auto using polled_id.
Qed.

(** A dead handle costs the registry entry and a log line, nothing else:
    neither the store nor [download_stats] is touched. *)
Lemma monitor_entry_invalid_frame now tid h w :
  torrents (ses w) !! h = None →
  db_torrents (monitor_entry now (tid, h) w).2 = db_torrents w ∧
  download_stats (monitor_entry now (tid, h) w).2 = download_stats w ∧
  (is_Some (dict_get tid (torrent_handles w)) →
     (monitor_entry now (tid, h) w).1 = Ok tt ∧
     torrent_handles (monitor_entry now (tid, h) w).2
       = dict_remove tid (torrent_handles w)).
Proof.
  intros H. rewrite monitor_entry_invalid by done. unfold del_torrent_handle. cbn.
  destruct (dict_get tid (torrent_handles w)) eqn:E; cbn; split_and!; try done.
Qed.

(** ** A whole pass *)





Lemma for_each_ses now l w : ses (for_each (monitor_entry now) l w).2 = ses w.
Proof.
  apply (for_each_invariant (λ w', ses w' = ses w)); [|done].
  intros e w1 _ <-. apply monitor_entry_frame.
Qed.

(** A pass is the loop over the registry, then the broadcast when the
    loop has not raised, then the nap. *)
Lemma monitor_tick_run now w :
  monitor_tick now w =
    match for_each (monitor_entry now) (torrent_handles w) w with
    | (Ok _, w1) => (2, (send_updates w1).2)
    | (Raise e, w1) => (5, with_logger (λ l, l ++ [Error_monitor e]) w1)
    end.
Proof.
  unfold monitor_tick, monitor_pass. run.
  destruct (for_each _ _ w) as [[[]|e] w1]; [|done].
  by rewrite send_updates_run.
Qed.

(** The loop raises nothing when the registry is a dictionary and no
    [eta] overflows. *)
Lemma for_each_monitor_ok now : ∀ l w,
  NoDup l.*1 →
  (∀ e, e ∈ l → is_Some (dict_get e.1 (torrent_handles w))) →
  (∀ e t, e ∈ l → torrents (ses w) !! e.2 = Some t →
          ∃ eta, eta_of (t_status t) = Ok eta) →
  (for_each (monitor_entry now) l w).1 = Ok tt.
Proof.
  induction l as [|[k h] l IH]; intros w Hnd Hreg Heta; [done|].
  rewrite fmap_cons in Hnd. apply NoDup_cons in Hnd as [Hk Hnd].
  rewrite for_each_cons.
  assert ((monitor_entry now (k, h) w).1 = Ok tt) as Hok.
  { destruct (monitor_entry_cases now k h w)
      as [[_ ->]|[(t & x & Ht & Hx & _)|(t & eta & _ & _ & ->)]]; [| |done].
    - unfold del_torrent_handle. cbn.
      destruct (Hreg (k, h)) as [h' Hh']; [apply list_elem_of_here|].
      cbn in Hh'. by rewrite Hh'.
    - destruct (Heta (k, h) t) as [eta Heta']; [apply list_elem_of_here|done|].
      congruence. }
  pose proof (monitor_entry_frame now (k, h) w) as (Hses & _ & _ & _ & Hother).
  destruct (monitor_entry now (k, h) w) as [[[]|x] w1]; [|done]. cbn in *.
  apply IH; [done| |].
  - intros e He.
    assert (e.1 ≠ k) as Hne.
    { intros <-. apply Hk. by apply list_elem_of_fmap_2. }
    destruct (Hother e.1 Hne) as (_ & -> & _).
    apply Hreg. by apply list_elem_of_further.
  - intros e t He. rewrite Hses. apply Heta. by apply list_elem_of_further.
Qed.

(** A pass then runs to its end, broadcast included. *)
Lemma monitor_tick_completes now w :
  NoDup (torrent_handles w).*1 →
  (∀ e t, e ∈ torrent_handles w → torrents (ses w) !! e.2 = Some t →
          ∃ eta, eta_of (t_status t) = Ok eta) →
  (monitor_tick now w).1 = 2.
Proof.
  intros Hnd Heta. rewrite monitor_tick_run.
  pose proof (for_each_monitor_ok now (torrent_handles w) w Hnd) as Hok.
  destruct (for_each _ _ w) as [[[]|x] w1]; [done|].
  cbn in Hok. discriminate Hok; [|done]. intros e. apply dict_get_entry.
Qed.

Lemma monitor_tick_db now w :
  db_torrents (monitor_tick now w).2 =
    db_torrents (for_each (monitor_entry now) (torrent_handles w) w).2.
Proof.
  rewrite monitor_tick_run.
  destruct (for_each _ _ w) as [[[]|e] w1]; [|done].
  by rewrite send_updates_run.
Qed.



(** A transfer that is in neither map stays out of both, and out of
    everything a pass sends. *)
Lemma monitor_tick_unregistered now tid w :
  dict_get tid (torrent_handles w) = None →
  download_stats w !! tid = None →
  dict_get tid (torrent_handles (monitor_tick now w).2) = None ∧
  download_stats (monitor_tick now w).2 !! tid = None ∧
  ∃ new, ws_received (monitor_tick now w).2 = ws_received w ++ new ∧
         Forall (λ p, p.2 !! tid = None) new.
Proof.
  intros Hreg Hstats.
  pose proof (for_each_invariant
    (λ w1, dict_get tid (torrent_handles w1) = None ∧
           download_stats w1 !! tid = None ∧
           ws_received w1 = ws_received w)
    (monitor_entry now) (torrent_handles w)) as Hinv.
  rewrite monitor_tick_run.
  destruct (Hinv) with (w := w) as (H1 & H2 & H3); [|done|].
  { intros e w1 He (G1 & G2 & G3).
    pose proof (dict_get_None_entry _ _ _ Hreg He) as Hne.
    destruct (monitor_entry_frame now e w1) as (_ & _ & _ & Hr & Hother).
    destruct (Hother tid) as (F1 & F2 & _); [done|].
    by rewrite F1, F2, Hr. }
  clear Hinv.
  destruct (for_each _ _ w) as [[[]|e] w1]; cbn in *.
  - rewrite send_updates_run; cbn. split_and!; [done..|].
    eexists. rewrite H3. split; [done|].
    apply Forall_fmap, Forall_forall. by intros ws _.
  - split_and!; [done..|]. exists []. by rewrite app_nil_r, H3.
Qed.

(** No pass ever takes an entry out of [download_stats]: what a pruned
    transfer left there stays. *)
Lemma monitor_tick_keeps_stats now tid w :
  is_Some (download_stats w !! tid) →
  is_Some (download_stats (monitor_tick now w).2 !! tid).
Proof.
  intros Hs.
  assert (is_Some (download_stats
                     (for_each (monitor_entry now) (torrent_handles w) w).2 !! tid))
    as Hloop.
  { apply (for_each_invariant (λ w1, is_Some (download_stats w1 !! tid))); [|done].
    intros e w1 _ H1.
    destruct (decide (tid = e.1)) as [->|Hne].
    - destruct e as [k h]. cbn.
      destruct (monitor_entry_cases now k h w1)
        as [[_ ->]|[(t & x & _ & _ & ->)|(t & eta & _ & _ & ->)]]; cbn.
      + unfold del_torrent_handle. by destruct (dict_get _ _).
      + unfold entry_raised_world.
        destruct (truthy _); cbn; by rewrite lookup_insert_eq.
      + unfold entry_ok_world.
        destruct (truthy _), (is_seeding _ && _), (negb _); cbn;
          by rewrite lookup_insert_eq.
    - destruct (monitor_entry_frame now e w1) as (_ & _ & _ & _ & Hother).
      destruct (Hother tid Hne) as (-> & _). done. }
  rewrite monitor_tick_run.
  destruct (for_each _ _ w) as [[[]|x] w1]; cbn in *; [|done].
  by rewrite send_updates_run.
Qed.

Lemma monitor_torrents_unregistered tid instants : ∀ w,
  dict_get tid (torrent_handles w) = None →
  download_stats w !! tid = None →
  ∃ new, ws_received (monitor_torrents instants w) = ws_received w ++ new ∧
         Forall (λ p, p.2 !! tid = None) new.
Proof.
  induction instants as [|now instants IH]; intros w Hreg Hstats.
  - exists []. by rewrite app_nil_r.
  - destruct (monitor_tick_unregistered now tid w Hreg Hstats)
      as (H1 & H2 & new1 & Hnew1 & Hall1).
    destruct (IH _ H1 H2) as (new2 & Hnew2 & Hall2).
    exists (new1 ++ new2). split.
    + change (monitor_torrents (now :: instants) w)
        with (monitor_torrents instants (monitor_tick now w).2).
      by rewrite Hnew2, Hnew1, app_assoc.
    + by apply Forall_app.
Qed.

(** ** The routes *)

Lemma delete_torrent_run tid w :
  delete_torrent tid w =
    match dict_get tid (torrent_handles w) with
    | Some h =>
        if bool_decide (is_Some (torrents (ses w) !! h)) then
          (Ok "Torrent deleted",
           with_db_torrents (delete_one tid)
             (with_download_stats (delete tid)
                (with_torrent_handles (dict_remove tid) (engine_drops h w))))
        else (Raise (RuntimeError "invalid torrent handle used"), w)
    | None => (Ok "Torrent deleted", with_db_torrents (delete_one tid) w)
    end.
Proof.
  unfold delete_torrent, mbind, M_bind, gets, modify, mret, M_ret.
  destruct (dict_get tid (torrent_handles w)) as [h|] eqn:E; [|done].
  unfold remove_torrent.
  destruct (torrents (ses w) !! h) as [t|] eqn:Et.
  - rewrite bool_decide_eq_true_2 by eauto.
    unfold del_torrent_handle, when. cbn. rewrite E. cbn.
    case_bool_decide as Hs; cbn; [done|].
    unfold with_download_stats; cbn.
    rewrite delete_id; [done|].
    by apply eq_None_not_Some.
  - rewrite bool_decide_eq_false_2; [done|]. by intros [? ?].
Qed.

Lemma get_system_stats_rates w :
  ∃ st, get_system_stats w = (Ok st, w) ∧
        global_download_rate st = sum_rates s_download_rate (download_stats w) ∧
        global_upload_rate st = sum_rates s_upload_rate (download_stats w).
Proof. eexists. by split_and!. Qed.

(** ** Calls through a handle *)

Lemma alter_torrent_live f h w t :
  torrents (ses w) !! h = Some t →
  alter_torrent f h w =
    (Ok tt, with_ses (λ s, {| torrents := alter f h (torrents s);
                              next_handle := next_handle s |}) w).
Proof. intros H. unfold alter_torrent. by rewrite H. Qed.

Lemma alter_torrent_dead f h w :
  torrents (ses w) !! h = None →
  alter_torrent f h w = (Raise (RuntimeError "invalid torrent handle used"), w).
Proof. intros H. unfold alter_torrent. by rewrite H. Qed.

(** What has become of the torrent just inserted under a handle. *)
Ltac engine_step :=
  cbn;
  rewrite ?lookup_alter_eq, ?lookup_insert_eq, ?alter_insert_eq;
  cbn.

Section Create.
Variable lt_torrent_info : string → result torrent_info.

(** The torrent a successful [add_torrent_to_session] leaves in the
    session, when the limits of [params] fit a C [int]. *)
Lemma add_torrent_to_session_ok torrent_data torrent_id dl ul start now w info :
  lt_torrent_info torrent_data = Ok info →
  has_info_hash (ti_info_hash info) (ses w) = false →
  c_int (default 0 dl) = true →
  c_int (default 0 ul) = true →
  add_torrent_to_session lt_torrent_info torrent_data torrent_id
    {| p_download_speed_limit := dl; p_upload_speed_limit := ul;
       p_scheduled_start := start |} now w
  = (Ok true,
     with_logger (λ l, l ++ [Info_added (ti_name info)])
       (with_torrent_handles (dict_set torrent_id (next_handle (ses w)))
          (with_ses (λ s,
             {| torrents :=
                  <[next_handle s :=
                      set_paused
                        match start with
                        | Some t => bool_decide (now < t)
                        | None => false
                        end
                        {| t_info_hash := ti_info_hash info;
                           t_status := fresh_status info;
                           t_auto_managed := true;
                           t_download_limit := limit_requested dl;
                           t_upload_limit := limit_requested ul;
                           t_reannounced := true |}]> (torrents s);
                next_handle := S (next_handle s) |}) w))).
Proof.
  intros Hparse Hfresh Hdl Hul.
  unfold add_torrent_to_session, add_torrent. run.
  rewrite Hparse, Hfresh. cbn.
  destruct w as [regs sts conns [ts nh] db lg cl rc].
  unfold when_limit, when, set_download_limit, set_upload_limit, force_reannounce,
    handle_pause, alter_torrent, raise, with_logger, with_torrent_handles, with_ses.
  destruct dl as [dl|], ul as [ul|], start as [t|];
    cbn in Hdl, Hul |- *; rewrite ?Hdl, ?Hul;
    repeat (first [progress engine_step | case_bool_decide; subst]);
    reflexivity.
Qed.


Lemma upload_torrent_ok file dl ul uuid4 now w info :
  endswith (filename file) ".torrent" = true →
  lt_torrent_info (file_content file) = Ok info →
  has_info_hash (ti_info_hash info) (ses w) = false →
  c_int (default 0 dl) = true →
  c_int (default 0 ul) = true →
  upload_torrent lt_torrent_info file dl ul uuid4 now w
  = (Ok (TorrentInfo uuid4 (ti_name info) (ti_total_size info) dl ul now),
     with_logger (λ l, l ++ [Info_added (ti_name info)])
       (with_torrent_handles (dict_set uuid4 (next_handle (ses w)))
          (with_ses (λ s,
             {| torrents :=
                  <[next_handle s :=
                      {| t_info_hash := ti_info_hash info;
                         t_status := fresh_status info;
                         t_auto_managed := true;
                         t_download_limit := limit_requested dl;
                         t_upload_limit := limit_requested ul;
                         t_reannounced := true |}]> (torrents s);
                next_handle := S (next_handle s) |})
             (with_db_torrents
                (insert_one (TorrentInfo uuid4 (ti_name info) (ti_total_size info)
                               dl ul now)) w)))).
Proof.
  intros Hext Hparse Hfresh Hdl Hul. unfold upload_torrent. rewrite Hext. cbn.
  unfold try_except at 1. unfold mbind at 1, M_bind at 1.
  unfold lift at 1. rewrite Hparse.
  unfold mbind at 1, M_bind at 1, modify at 1.
  unfold mbind at 1, M_bind at 1.
  rewrite (add_torrent_to_session_ok _ _ _ _ _ _ _ info) by done.
  reflexivity.
Qed.

End Create.

(** * The claims *)

(** ** C1: [completed_at] *)




(** ** C2: a failure inside a pass *)

(** Claim C2, as the code has it.  The only [try] of the loop encloses the
    whole pass: when the entry [e] raises, the transfers after it are not
    processed and nothing is broadcast; the exception is logged once and
    the loop sleeps 5 seconds before its next pass. *)
Theorem monitor_failure_ends_pass now w pre e post w1 x w2 :
  torrent_handles w = pre ++ e :: post →
  for_each (monitor_entry now) pre w = (Ok tt, w1) →
  monitor_entry now e w1 = (Raise x, w2) →
  monitor_tick now w = (5, with_logger (λ l, l ++ [Error_monitor x]) w2).
Proof.
  intros Hreg Hpre He.
  rewrite monitor_tick_run, Hreg, for_each_app, Hpre, for_each_cons, He.
  reflexivity.
Qed.

Lemma monitor_failure_ends_pass_witness :
  torrent_handles w_crawling = [] ++ ("a", 0%nat) :: [("b", 1%nat)] ∧
  for_each (monitor_entry 10) [] w_crawling = (Ok tt, w_crawling) ∧
  monitor_entry 10 ("a", 0%nat) w_crawling
    = (Raise OverflowError, entry_raised_world "a" status_crawling w_crawling) ∧
  monitor_tick 10 w_crawling
    = (5, with_logger (λ l, l ++ [Error_monitor OverflowError])
            (entry_raised_world "a" status_crawling w_crawling)).
Proof.
  assert (monitor_entry 10 ("a", 0%nat) w_crawling
          = (Raise OverflowError, entry_raised_world "a" status_crawling w_crawling))
    as He by (vm_compute; reflexivity).
  split_and!; [reflexivity|reflexivity|exact He|].
  exact (monitor_failure_ends_pass 10 w_crawling [] ("a", 0%nat) [("b", 1%nat)]
           w_crawling OverflowError _ eq_refl eq_refl He).
Defined.

(** Claim C2 fails as stated: the [eta] of ["a"] overflows, and ["b"],
    which would have been processed without failure, is not polled (no
    [download_stats] entry, record untouched); the waiting subscriber is
    sent nothing. *)
Lemma monitor_failure_not_isolated :
  (monitor_entry 10 ("a", 0%nat) w_crawling).1 = Raise OverflowError ∧
  (monitor_entry 10 ("b", 1%nat) w_crawling).1 = Ok tt ∧
  (monitor_tick 10 w_crawling).1 = 5 ∧
  download_stats (monitor_tick 10 w_crawling).2 !! "b" = None ∧
  find_one "b" (db_torrents (monitor_tick 10 w_crawling).2)
    = find_one "b" (db_torrents w_crawling) ∧
  websocket_connections w_crawling = [7%nat] ∧
  ws_received (monitor_tick 10 w_crawling).2 = [].
Proof. vm_compute. by split_and!. Qed.

(** ** C3: a scheduled start *)

(** [add_torrent_to_session] pauses the handle when its [params] carry a
    [scheduled_start] that lies ahead (lines 265-267). *)
Lemma add_torrent_to_session_pauses lt_torrent_info torrent_data torrent_id
    dl ul start now w info :
  lt_torrent_info torrent_data = Ok info →
  has_info_hash (ti_info_hash info) (ses w) = false →
  c_int (default 0 dl) = true →
  c_int (default 0 ul) = true →
  now < start →
  engine_paused torrent_id
    (add_torrent_to_session lt_torrent_info torrent_data torrent_id
       {| p_download_speed_limit := dl; p_upload_speed_limit := ul;
          p_scheduled_start := Some start |} now w).2
  = Some true.
Proof.
  intros Hparse Hfresh Hdl Hul Hlt.
  rewrite (add_torrent_to_session_ok _ _ _ _ _ _ _ _ info) by done.
  unfold engine_paused. cbn. rewrite dict_get_set_eq. cbn.
  rewrite lookup_insert_eq. cbn. by rewrite bool_decide_eq_true_2.
Qed.

(** Claim C3 on the code.  The helper pauses a transfer scheduled for
    one hour ahead; the route has no [scheduled_start] to pass on, so for
    the same upload the engine is left running and the record starts
    [queued] with no [scheduled_start]. *)
Theorem upload_torrent_never_starts_paused :
  engine_paused "id1"
    (add_torrent_to_session sample_torrent_info "dmovie" "id1"
       {| p_download_speed_limit := None; p_upload_speed_limit := None;
          p_scheduled_start := Some 4600 |} 1000 w_empty).2
    = Some true ∧
  (upload_torrent sample_torrent_info movie_file None None "id1" 1000 w_empty).1
    = Ok (TorrentInfo "id1" "movie" 1000 None None 1000) ∧
  d_status (TorrentInfo "id1" "movie" 1000 None None 1000) = "queued" ∧
  d_scheduled_start <$> find_one "id1" (db_torrents w_uploaded) = Some None ∧
  d_status <$> find_one "id1" (db_torrents w_uploaded) = Some "queued" ∧
  engine_paused "id1" w_uploaded = Some false.
Proof. vm_compute. by split_and!. Qed.

(** ** C4: a handle that is no longer valid *)

(** Claim C4 on the code.  After the engine has dropped ["a"], the pass at
    12 unregisters it and leaves its record alone, and ["b"] is still
    polled; but the entry of ["a"] stays in [download_stats], so the passes
    at 12 and at 14 go on broadcasting the rates it had at 10. *)
Theorem pruned_transfer_still_broadcast :
  dict_get "a" (torrent_handles w_dropped) = Some 0%nat ∧
  torrents (ses w_dropped) !! 0%nat = None ∧
  dict_get "a" (torrent_handles w_pruned) = None ∧
  dict_get "b" (torrent_handles w_pruned) = Some 1%nat ∧
  find_one "a" (db_torrents w_pruned) = find_one "a" (db_torrents w_dropped) ∧
  is_Some (download_stats w_polled !! "a") ∧
  (λ p, (p.1, p.2 !! "a")) <$> ws_received w_later
    = replicate 3 (7%nat, download_stats w_polled !! "a").
Proof. vm_compute. split_and!; try done. by eexists. Qed.

(** ** C5: the derived status *)

(** Claim C5.  The status is the one given by the first rule that
    matches, in the order completed, paused, checking,
    downloading_metadata, queued, error, and downloading when none does;
    a snapshot that is fully available is [completed] whatever its error
    string. *)
Theorem derive_status_priority :
  (∀ status, derive_status status = first_match status_rules "downloading" status) ∧
  (∀ p dr ur st td tu tw np ns err pa,
     derive_status {| progress := p; download_rate := dr; upload_rate := ur;
                      state := st; total_download := td; total_upload := tu;
                      total_wanted := tw; num_peers := np; num_seeds := ns;
                      error := err; is_seeding := true; paused := pa |}
     = "completed").
Proof.
  split; [|done].
  intros status. unfold derive_status, status_rules, first_match.
  rewrite truthy_eqb.
  destruct (is_seeding status); [done|].
  destruct (paused status); [done|].
  repeat (case_decide;
          [by rewrite bool_decide_eq_true_2
          |rewrite bool_decide_eq_false_2 by done]).
  done.
Qed.

(** ** C6: a descriptor that does not parse *)

(** Claim C6, as the code has it.  When the content does not parse, the
    upload fails and leaves the store, the registry and the engine as they
    were: with status 400 when the file name does not end in [.torrent]
    (the content is then not read), and otherwise with status 500, the
    detail being the text of the parser's exception, which is also
    logged. *)
Theorem upload_torrent_unparseable lt_torrent_info file dl ul uuid4 now w e :
  lt_torrent_info (file_content file) = Raise e →
  upload_torrent lt_torrent_info file dl ul uuid4 now w =
    if endswith (filename file) ".torrent"
    then (Raise (HTTPException 500 (Str e)),
          with_logger (λ l, l ++ [Error_uploading e]) w)
    else (Raise (HTTPException 400 (Literal "File must be a .torrent file")), w).
Proof.
  intros Hparse. unfold upload_torrent.
  destruct (endswith (filename file) ".torrent"); cbn; [|done].
  run. by rewrite Hparse.
Qed.

Lemma upload_torrent_unparseable_witness :
  sample_torrent_info (file_content garbage_file)
    = Raise (RuntimeError "not a valid torrent file") ∧
  upload_torrent sample_torrent_info garbage_file None None "id1" 1000 w_empty =
    if endswith (filename garbage_file) ".torrent"
    then (Raise (HTTPException 500 (Str (RuntimeError "not a valid torrent file"))),
          with_logger (λ l, l ++ [Error_uploading (RuntimeError "not a valid torrent file")])
            w_empty)
    else (Raise (HTTPException 400 (Literal "File must be a .torrent file")), w_empty).
Proof.
  split; [reflexivity|].
  exact (upload_torrent_unparseable sample_torrent_info garbage_file None None
           "id1" 1000 w_empty _ eq_refl).
Defined.

(** Claim C6 fails as stated: [x.torrent] holds bytes that do not parse,
    and the upload is answered with status 500, not 400. *)
Lemma unparseable_upload_is_not_400 :
  sample_torrent_info (file_content garbage_file)
    = Raise (RuntimeError "not a valid torrent file") ∧
  (upload_torrent sample_torrent_info garbage_file None None "id1" 1000 w_empty).1
    = Raise (HTTPException 500 (Str (RuntimeError "not a valid torrent file"))) ∧
  ¬ ∃ detail,
      (upload_torrent sample_torrent_info garbage_file None None "id1" 1000 w_empty).1
      = Raise (HTTPException 400 detail).
Proof.
  split_and!; [reflexivity|reflexivity|].
  intros [detail H]. vm_compute in H. discriminate.
Qed.

(** ** C7: delete *)

(** Claim C7 on the code.  The engine has dropped ["a"] and no pass has
    run since: ["a"] is still registered, under a handle that is no longer
    valid.  [ses.remove_torrent] raises on it; the route calls it without
    a guard and so ends before its [delete_one]: the record of ["a"]
    stays, and nothing else changes either.  Once a pass, which tests
    [is_valid], has unregistered ["a"], the same request goes through. *)
Theorem delete_torrent_stale_handle_keeps_record :
  dict_get "a" (torrent_handles w_dropped) = Some 0%nat ∧
  torrents (ses w_dropped) !! 0%nat = None ∧
  is_Some (find_one "a" (db_torrents w_dropped)) ∧
  delete_torrent "a" w_dropped
    = (Raise (RuntimeError "invalid torrent handle used"), w_dropped) ∧
  dict_get "a" (torrent_handles w_pruned) = None ∧
  (delete_torrent "a" w_pruned).1 = Ok "Torrent deleted" ∧
  find_one "a" (db_torrents (delete_torrent "a" w_pruned).2) = None.
Proof.
  split_and!; [reflexivity|reflexivity|vm_compute; eauto| |reflexivity..].
  rewrite delete_torrent_run. reflexivity.
Qed.

(** ** C8: pausing an unknown identifier *)

(** Claim C8.  Pausing an identifier that is not registered raises the
    404 error and changes nothing at all, the store included. *)
Theorem pause_torrent_not_found tid w :
  dict_get tid (torrent_handles w) = None →
  pause_torrent tid w = (Raise (HTTPException 404 (Literal "Torrent not found")), w) ∧
  db_torrents (pause_torrent tid w).2 = db_torrents w.
Proof.
  intros H. unfold pause_torrent, mbind, M_bind, gets, raise. by rewrite H.
Qed.

(** ["id2"] has a record but no registry entry. *)
Lemma pause_torrent_not_found_witness :
  dict_get "id2" (torrent_handles w_orphan) = None ∧
  pause_torrent "id2" w_orphan
    = (Raise (HTTPException 404 (Literal "Torrent not found")), w_orphan) ∧
  db_torrents (pause_torrent "id2" w_orphan).2 = db_torrents w_orphan.
Proof.
  split; [reflexivity|].
  exact (pause_torrent_not_found "id2" w_orphan eq_refl).
Defined.

(** ** C9: the broadcast *)

(** Claim C9.  A broadcast never raises; every subscriber whose
    connection is open is sent the content of [download_stats], the same
    for all of them; the subscribers whose send failed are gone from
    [websocket_connections] afterwards, the others remain; nothing else
    changes, and nothing is logged. *)
Theorem send_updates_best_effort w :
  (send_updates w).1 = Ok tt ∧
  ws_received (send_updates w).2 =
    ws_received w ++ ((λ ws, (ws, download_stats w)) <$>
                        still_open w (websocket_connections w)) ∧
  websocket_connections (send_updates w).2 = still_open w (websocket_connections w) ∧
  still_open (send_updates w).2 (websocket_connections (send_updates w).2)
    = websocket_connections (send_updates w).2 ∧
  torrent_handles (send_updates w).2 = torrent_handles w ∧
  download_stats (send_updates w).2 = download_stats w ∧
  ses (send_updates w).2 = ses w ∧
  db_torrents (send_updates w).2 = db_torrents w ∧
  logger (send_updates w).2 = logger w.
Proof.
  rewrite send_updates_run. cbn. split_and!; try done.
  unfold still_open. cbn.
  apply list_filter_filter_l. by intros ws ?.
Qed.

(** Subscribers 7, 1, 2 and 3, of which 2 has gone away: the others are
    sent the statistics, and only they remain. *)
Example send_updates_one_gone :
  websocket_connections w_subscribers = [7; 1; 2; 3]%nat ∧
  (send_updates w_subscribers).1 = Ok tt ∧
  ws_received (send_updates w_subscribers).2
    = ws_received w_subscribers
      ++ [(7%nat, download_stats w_subscribers);
          (1%nat, download_stats w_subscribers);
          (3%nat, download_stats w_subscribers)] ∧
  websocket_connections (send_updates w_subscribers).2 = [7; 1; 3]%nat.
Proof. vm_compute. by split_and!. Qed.

(** ** C10: the rates of a deleted transfer *)

(** Claim C10 on the code.  ["a"] was polled at 10, with a download rate
    of 100, and is registered; the engine has since dropped it.  The
    delete request raises at [ses.remove_torrent] and takes ["a"] out of
    neither map: its entry of [download_stats] still counts in the global
    rates, and the next pass broadcasts it. *)
Theorem delete_torrent_stale_handle_keeps_rates :
  dict_get "a" (torrent_handles w_dropped) = Some 0%nat ∧
  s_download_rate <$> download_stats w_dropped !! "a" = Some 100 ∧
  (delete_torrent "a" w_dropped).1
    = Raise (RuntimeError "invalid torrent handle used") ∧
  dict_get "a" (torrent_handles (delete_torrent "a" w_dropped).2) = Some 0%nat ∧
  s_download_rate <$> download_stats (delete_torrent "a" w_dropped).2 !! "a"
    = Some 100 ∧
  global_download_rate <$> (get_system_stats w_dropped).1 = Ok 200 ∧
  global_download_rate <$> (get_system_stats (delete_torrent "a" w_dropped).2).1
    = Ok 200 ∧
  (λ p, s_download_rate <$> p.2 !! "a")
    <$> ws_received (monitor_tick 12 (delete_torrent "a" w_dropped).2).2
    = [Some 100; Some 100].
Proof. vm_compute. by split_and!. Qed.

(** * Further properties of the code *)

(** ** Arithmetic of the [eta] *)

Lemma timedelta_in_range n :
  -86399999913600 ≤ n ≤ 86399999999999 → timedelta n = Ok (Timedelta n).
Proof.
  intros Hn. unfold timedelta. rewrite bool_decide_eq_true_2; [done|].
  assert (-999999999 ≤ n `div` 86400 ≤ 999999999) as Hd.
  { split.
    - apply Z.div_le_lower_bound; lia.
    - assert (n `div` 86400 < 1000000000); [|lia].
      apply Z.div_lt_upper_bound; lia. }
  lia.
Qed.

(** Truncation brings a quotient towards zero. *)
Lemma quot_between a b : 0 < b → Z.min 0 a ≤ a `quot` b ≤ Z.max 0 a.
Proof.
  intros Hb. destruct (Z.le_gt_cases 0 a) as [Ha|Ha].
  - rewrite Z.quot_div_nonneg by lia.
    pose proof (Z.div_pos a b Ha Hb).
    assert (a `div` b ≤ a) by (apply Z.div_le_upper_bound; nia).
    lia.
  - assert (a `quot` b = - ((- a) `div` b)) as ->.
    { rewrite <- (Z.quot_div_nonneg (- a) b) by lia.
      rewrite Z.quot_opp_l by lia. lia. }
    assert (0 ≤ (- a) `div` b) by (apply Z.div_pos; lia).
    assert ((- a) `div` b ≤ - a) by (apply Z.div_le_upper_bound; nia).
    lia.
Qed.

(** *** The true division below [2 ^ 53] *)

Lemma round_half_even_cases n d :
  round_half_even n d = n `div` d ∨
  (round_half_even n d = n `div` d + 1 ∧ d ≤ 2 * (n `mod` d)).
Proof.
  unfold round_half_even. repeat case_bool_decide; auto; [right; split; lia|].
  destruct (Z.even _); [auto|right; split; lia].
Qed.

(** The exponent found by [binade] leaves a significand of 53 bits. *)
Lemma binade_mantissa a b :
  0 < a < 2 ^ 53 → 0 < b →
  binade a b ≤ 52 ∧ 2 ^ 52 * b ≤ a * 2 ^ (52 - binade a b).
Proof.
  intros Ha Hb. unfold binade.
  pose proof (Z.log2_nonneg a) as Hla0. pose proof (Z.log2_nonneg b) as Hlb0.
  destruct (Z.log2_spec a) as [Ha1 Ha2]; [lia|].
  destruct (Z.log2_spec b) as [Hb1 Hb2]; [lia|].
  assert (Z.log2 a < 53) as Hla by (apply Z.log2_lt_pow2; lia).
  set (la := Z.log2 a) in *. set (lb := Z.log2 b) in *.
  rewrite Z.pow_succ_r in Ha2, Hb2 by lia.
  assert (0 < 2 ^ la) by (apply Z.pow_pos_nonneg; lia).
  assert (0 < 2 ^ lb) by (apply Z.pow_pos_nonneg; lia).
  assert (0 < 2 ^ (52 - la)) by (apply Z.pow_pos_nonneg; lia).
  assert (2 ^ 52 = 2 ^ la * 2 ^ (52 - la)) as H52.
  { rewrite <- Z.pow_add_r by lia. f_equal. lia. }
  case_bool_decide as Hadj.
  - split; [lia|].
    replace (52 - (la - lb - 1)) with (1 + (lb + (52 - la))) by lia.
    rewrite Z.pow_add_r, Z.pow_add_r by lia. rewrite H52.
    change (2 ^ 1) with 2. nia.
  - split; [lia|].
    replace (52 - (la - lb - 0)) with (lb + (52 - la)) by lia.
    rewrite Z.pow_add_r by lia. rewrite H52. nia.
Qed.

(** Below [2 ^ 53] the rounding of the true division never reaches the
    next integer: [int(a / b)] is the exact quotient. *)
Lemma int_true_div_pos_exact a b :
  0 < a < 2 ^ 53 → 0 < b → int_true_div_pos a b = Ok (a `div` b).
Proof.
  intros Ha Hb. unfold int_true_div_pos.
  destruct (binade_mantissa a b Ha Hb) as [He Hm].
  rewrite bool_decide_eq_true_2 by done. f_equal.
  set (P := 2 ^ (52 - binade a b)) in *.
  assert (0 < P) as HP by (apply Z.pow_pos_nonneg; lia).
  assert (((a * P) `div` b) `div` P = a `div` b) as Hq.
  { rewrite Z.div_div by lia. rewrite Z.div_mul_cancel_r by lia. done. }
  pose proof (Z.div_mod (a * P) b ltac:(lia)) as Hdm.
  pose proof (Z.mod_pos_bound (a * P) b Hb) as Hr.
  pose proof (Z.div_mod a b ltac:(lia)) as Hdm'.
  pose proof (Z.mod_pos_bound a b Hb) as Hr'.
  destruct (round_half_even_cases (a * P) b) as [->|[-> Hup]]; [done|].
  set (m0 := (a * P) `div` b) in *. set (r := (a * P) `mod` b) in *.
  set (q := a `div` b) in *. set (r' := a `mod` b) in *.
  assert (2 ^ 52 ≤ m0) as Hm0.
  { apply Z.div_le_lower_bound; lia. }
  pose proof (Z.div_mod m0 P ltac:(lia)) as Hdm0.
  pose proof (Z.mod_pos_bound m0 P HP) as Hr0.
  rewrite Hq in Hdm0.
  symmetry. apply Z.div_unique with (r := m0 `mod` P + 1); [|lia].
  left. split; [lia|].
  destruct (decide (m0 `mod` P + 1 < P)) as [|Hfull]; [done|exfalso].
  assert (m0 + 1 = (q + 1) * P) as Hm1 by lia.
  assert (0 ≤ q) by (apply Z.div_pos; lia).
  set (D := (q + 1) * b - a).
  assert (1 ≤ D) by (unfold D; lia).
  assert (r = b - P * D) as Hrd.
  { assert (m0 = (q + 1) * P - 1) as Hm0' by lia.
    rewrite Hm0' in Hdm. unfold D. lia. }
  assert (2 * P * D ≤ b) as HbD by lia.
  assert (2 ^ 53 + 1 ≤ 2 * (q + 1) * P - 1) as Hbig by lia.
  assert (a = (q + 1) * b - D) as Ha' by (unfold D; lia).
  assert ((2 * (q + 1) * P - 1) * D ≤ a) by nia.
  nia.
Qed.

Lemma int_true_div_exact a b :
  - 2 ^ 53 < a < 2 ^ 53 → 0 < b → int_true_div a b = Ok (a `quot` b).
Proof.
  intros Ha Hb. unfold int_true_div.
  case_bool_decide as H0; [subst; by rewrite Z.quot_0_l by lia|].
  case_bool_decide as Hpos.
  - rewrite int_true_div_pos_exact by lia. by rewrite Z.quot_div_nonneg by lia.
  - rewrite int_true_div_pos_exact by lia. cbn. f_equal.
    rewrite <- (Z.quot_div_nonneg (- a) b) by lia.
    rewrite Z.quot_opp_l by lia. lia.
Qed.

(** The rounding at work: 109951162777599999 bytes at 100000 bytes per
    second give [2 ^ 40] seconds, one more than the exact quotient. *)
Example int_true_div_rounds_up :
  int_true_div 109951162777599999 100000 = Ok 1099511627776 ∧
  109951162777599999 `quot` 100000 = 1099511627775.
Proof. vm_compute. by split. Qed.

Lemma eta_of_some_in_range status :
  -86399999913600 ≤ total_wanted status - total_download status ≤ 86399999999999 →
  ∃ eta, eta_of status = Ok eta.
Proof.
  intros Hr. unfold eta_of. case_bool_decide as Hrate; [|by eexists].
  rewrite int_true_div_exact by lia.
  eexists. apply timedelta_in_range.
  pose proof (quot_between (total_wanted status - total_download status)
                (download_rate status) Hrate).
  lia.
Qed.

(** X1.  While the bytes still wanted, less the bytes downloaded, stay
    within the seconds a [timedelta] can hold (about 86 TB either way),
    the [eta] never overflows: it is ["Unknown"] when the download rate is
    not positive, and otherwise the truncated quotient of the remaining
    bytes by the rate. *)
Theorem eta_of_in_range status :
  -86399999913600 ≤ total_wanted status - total_download status ≤ 86399999999999 →
  eta_of status =
    Ok (if bool_decide (0 < download_rate status)
        then Timedelta ((total_wanted status - total_download status)
                          `quot` download_rate status)
        else Unknown).
Proof.
  intros Hr. unfold eta_of. case_bool_decide as Hrate; [|done].
  rewrite int_true_div_exact by lia.
  apply timedelta_in_range.
  pose proof (quot_between (total_wanted status - total_download status)
                (download_rate status) Hrate).
  lia.
Qed.

Lemma eta_of_in_range_witness :
  -86399999913600 ≤ total_wanted status_downloading - total_download status_downloading
    ≤ 86399999999999 ∧
  eta_of status_downloading = Ok (Timedelta 5).
Proof.
  assert (-86399999913600 ≤ total_wanted status_downloading
            - total_download status_downloading ≤ 86399999999999) as H
    by (vm_compute; split; discriminate).
  split; [exact H|].
  exact (eta_of_in_range status_downloading H).
Defined.

(** ** What a pass does to each transfer *)

Lemma dict_get_NoDup {V} (d : list (string * V)) k v :
  NoDup d.*1 → (k, v) ∈ d → dict_get k d = Some v.
Proof.
  induction d as [|[k' v'] d IH]; intros Hnd Hin; [by apply elem_of_nil in Hin|].
  rewrite fmap_cons in Hnd. apply NoDup_cons in Hnd as [Hk Hnd]. cbn.
  apply elem_of_cons in Hin as [[= <- <-]|Hin]; [by rewrite decide_True|].
  rewrite decide_False; [by apply IH|].
  intros ->. apply Hk. by apply (list_elem_of_fmap_2 fst _ (k, v)).
Qed.

Lemma monitor_entry_slice now e w tid :
  tid ≠ e.1 → slice tid (monitor_entry now e w).2 = slice tid w.
Proof.
  intros Hne. unfold slice.
  destruct (monitor_entry_frame now e w) as (_ & _ & _ & _ & Hother).
  destruct (Hother tid Hne) as (-> & -> & ->). done.
Qed.

Lemma for_each_slice now tid l w :
  tid ∉ l.*1 → slice tid (for_each (monitor_entry now) l w).2 = slice tid w.
Proof.
  intros Hnotin.
  apply (for_each_invariant (λ w1, slice tid w1 = slice tid w)); [|done].
  intros e w1 He <-. apply monitor_entry_slice.
  intros ->. apply Hnotin. by apply list_elem_of_fmap_2.
Qed.

(** With unique keys, the loop reaches each entry with what the server
    held about it at the start, and leaves it as the entry left it. *)
Lemma for_each_reaches now tid h : ∀ l w w',
  NoDup l.*1 →
  (tid, h) ∈ l →
  for_each (monitor_entry now) l w = (Ok tt, w') →
  ∃ w1 w2, slice tid w1 = slice tid w ∧ ses w1 = ses w ∧
           monitor_entry now (tid, h) w1 = (Ok tt, w2) ∧
           slice tid w' = slice tid w2.
Proof.
  induction l as [|e l IH]; intros w w' Hnd Hin Hrun.
  { by apply elem_of_nil in Hin. }
  rewrite fmap_cons in Hnd. apply NoDup_cons in Hnd as [Hk Hnd].
  rewrite for_each_cons in Hrun.
  destruct (monitor_entry now e w) as [[[]|x] wa] eqn:He; [|done].
  apply elem_of_cons in Hin as [<-|Hin].
  - exists w, wa. split_and!; [done|done|done|].
    rewrite <- (for_each_slice now tid l wa Hk). by rewrite Hrun.
  - assert (tid ≠ e.1) as Hne.
    { intros ->. apply Hk. by apply (list_elem_of_fmap_2 fst _ (e.1, h)). }
    destruct (IH wa w' Hnd Hin Hrun) as (w1 & w2 & H1 & H2 & H3 & H4).
    exists w1, w2. split_and!; [| |done|done].
    + rewrite H1. rewrite <- (monitor_entry_slice now e w tid Hne). by rewrite He.
    + rewrite H2. pose proof (monitor_entry_frame now e w) as (Hs & _).
      by rewrite He in Hs.
Qed.

Lemma monitor_tick_slice now w tid :
  slice tid (monitor_tick now w).2
    = slice tid (for_each (monitor_entry now) (torrent_handles w) w).2.
Proof.
  rewrite monitor_tick_run.
  destruct (for_each _ _ w) as [[[]|x] w1]; [|done].
  by rewrite send_updates_run.
Qed.

(** What a pass that runs to its end leaves about a transfer whose handle
    is live. *)
Lemma monitor_tick_polled now w tid h t d :
  NoDup (torrent_handles w).*1 →
  (monitor_tick now w).1 = 2 →
  (tid, h) ∈ torrent_handles w →
  torrents (ses w) !! h = Some t →
  find_one tid (db_torrents w) = Some d →
  ∃ eta,
    eta_of (t_status t) = Ok eta ∧
    slice tid (monitor_tick now w).2
      = (Some (with_eta eta (make_stats (t_status t))), Some h,
         Some (polled now (t_status t) eta d)).
Proof.
  intros Hnd Hend Hin Ht Hd.
  pose proof (monitor_tick_slice now w tid) as Hslice.
  rewrite monitor_tick_run in Hend.
  destruct (for_each (monitor_entry now) (torrent_handles w) w)
    as [[[]|x] w'] eqn:Hrun; [|done].
  cbn [snd] in Hslice.
  destruct (for_each_reaches now tid h _ _ _ Hnd Hin Hrun)
    as (w1 & w2 & H1 & H2 & H3 & H4).
  rewrite H4 in Hslice.
  destruct (monitor_entry_cases now tid h w1)
    as [[? _]|[(t' & x & _ & _ & Hr)|(t' & eta & Ht' & Heta & Hr)]];
    [congruence..|].
  rewrite H2, Ht in Ht'. injection Ht' as <-.
  rewrite H3 in Hr. injection Hr as ->.
  unfold slice in H1. injection H1 as Hs1 Hh1 Hd1.
  exists eta. split; [done|]. rewrite Hslice. unfold slice, entry_ok_world.
  destruct (truthy _), (is_seeding _ && _), (negb _); cbn;
    rewrite lookup_insert_eq, find_one_update_one_eq, Hd1, Hd, Hh1,
      (dict_get_NoDup _ tid h) by auto using polled_id; reflexivity.
Qed.

(** X2.  A pass raises nothing, and so ends with its broadcast and the
    nap of two seconds, when the registry has one entry per identifier
    and, for every registered transfer whose handle is live, the bytes
    remaining stay within the seconds a [timedelta] can hold. *)
Theorem pass_runs_to_its_end now w :
  NoDup (torrent_handles w).*1 →
  (∀ e t, e ∈ torrent_handles w → torrents (ses w) !! e.2 = Some t →
          -86399999913600 ≤ total_wanted (t_status t) - total_download (t_status t)
            ≤ 86399999999999) →
  (monitor_tick now w).1 = 2.
Proof.
  intros Hnd Hrange. apply monitor_tick_completes; [done|].
  intros e t He Ht. apply eta_of_some_in_range. by apply (Hrange e).
Qed.

Lemma pass_runs_to_its_end_witness :
  NoDup (torrent_handles w_polled).*1 ∧
  (∀ e t, e ∈ torrent_handles w_polled → torrents (ses w_polled) !! e.2 = Some t →
          -86399999913600 ≤ total_wanted (t_status t) - total_download (t_status t)
            ≤ 86399999999999) ∧
  (monitor_tick 12 w_polled).1 = 2.
Proof.
  assert (NoDup (torrent_handles w_polled).*1) as Hnd.
  { apply (bool_decide_unpack _). vm_compute. exact I. }
  assert (∀ e t, e ∈ torrent_handles w_polled →
                 torrents (ses w_polled) !! e.2 = Some t →
                 -86399999913600
                   ≤ total_wanted (t_status t) - total_download (t_status t)
                   ≤ 86399999999999) as Hrange.
  { intros e t He Ht.
    change (torrent_handles w_polled) with [("a", 0%nat); ("b", 1%nat)] in He.
    apply elem_of_cons in He as [->|He];
      [|apply elem_of_cons in He as [->|He]; [|by apply elem_of_nil in He]];
      vm_compute in Ht; injection Ht as <-; vm_compute; split; discriminate. }
  split_and!; [exact Hnd|exact Hrange|].
  exact (pass_runs_to_its_end 12 w_polled Hnd Hrange).
Defined.

(** X3.  After a pass that ran to its end, the record of a registered
    transfer whose handle is live shows that pass's snapshot: the status
    derived from it, the progress in percent, the rates, the [eta], the
    peer and seed counts and the error; [download_stats] holds the same
    figures, and the transfer is still registered. *)
Theorem pass_records_snapshot now w tid h t d :
  NoDup (torrent_handles w).*1 →
  (monitor_tick now w).1 = 2 →
  (tid, h) ∈ torrent_handles w →
  torrents (ses w) !! h = Some t →
  find_one tid (db_torrents w) = Some d →
  ∃ eta d',
    eta_of (t_status t) = Ok eta ∧
    find_one tid (db_torrents (monitor_tick now w).2) = Some d' ∧
    d_status d' = derive_status (t_status t) ∧
    d_progress d' = (progress (t_status t) * 100)%Q ∧
    d_download_rate d' = download_rate (t_status t) ∧
    d_upload_rate d' = upload_rate (t_status t) ∧
    d_eta d' = Some eta ∧
    d_num_peers d' = Some (num_peers (t_status t)) ∧
    d_num_seeds d' = Some (num_seeds (t_status t)) ∧
    d_error d' = Some (if truthy (error (t_status t))
                       then Some (error (t_status t)) else None) ∧
    download_stats (monitor_tick now w).2 !! tid
      = Some (with_eta eta (make_stats (t_status t))) ∧
    dict_get tid (torrent_handles (monitor_tick now w).2) = Some h.
Proof.
  intros Hnd Hend Hin Ht Hd.
  destruct (monitor_tick_polled now w tid h t d Hnd Hend Hin Ht Hd)
    as (eta & Heta & Hslice).
  unfold slice in Hslice. injection Hslice as Hs Hh Hdoc.
  exists eta, (polled now (t_status t) eta d).
  split_and!; try done; try apply polled_status;
    unfold polled; by destruct (_ && _).
Qed.

Lemma pass_records_snapshot_witness :
  NoDup (torrent_handles w_seeding).*1 ∧
  (monitor_tick 10 w_seeding).1 = 2 ∧
  ("b", 1%nat) ∈ torrent_handles w_seeding ∧
  torrents (ses w_seeding) !! 1%nat = Some (sample_torrent "hb" status_downloading) ∧
  find_one "b" (db_torrents w_seeding) = Some (TorrentInfo "b" "B" 1000 None None 2) ∧
  ∃ d', find_one "b" (db_torrents (monitor_tick 10 w_seeding).2) = Some d' ∧
        d_status d' = "downloading" ∧ d_eta d' = Some (Timedelta 5).
Proof.
  assert (NoDup (torrent_handles w_seeding).*1) as Hnd.
  { apply (bool_decide_unpack _). vm_compute. exact I. }
  assert ((monitor_tick 10 w_seeding).1 = 2) as Hend by (vm_compute; reflexivity).
  assert (("b", 1%nat) ∈ torrent_handles w_seeding) as Hin.
  { apply list_elem_of_further, list_elem_of_here. }
  assert (torrents (ses w_seeding) !! 1%nat
          = Some (sample_torrent "hb" status_downloading)) as Ht
    by (vm_compute; reflexivity).
  split_and!; [exact Hnd|exact Hend|exact Hin|exact Ht|reflexivity|].
  destruct (pass_records_snapshot 10 w_seeding "b" 1%nat _ _ Hnd Hend Hin Ht eq_refl)
    as (eta & d' & Heta & Hd' & Hst & _ & _ & _ & He & _).
  exists d'. split_and!; [exact Hd'|exact Hst|].
  rewrite He. f_equal.
  assert (Ok eta = Ok (Timedelta 5)) as [= ->]; [by rewrite <- Heta|done].
Defined.

Lemma dict_remove_absent {V} k (d : list (string * V)) :
  k ∉ d.*1 → dict_remove k d = d.
Proof.
  induction d as [|[k' v] d IH]; [done|]. rewrite fmap_cons.
  intros [Hne Hnotin]%not_elem_of_cons. unfold dict_remove in *. cbn in *.
  rewrite bool_decide_eq_false_2 by done. cbn. by rewrite IH.
Qed.

Lemma dict_remove_middle {V} k (v : V) a b :
  k ∉ a.*1 → k ∉ b.*1 → dict_remove k (a ++ (k, v) :: b) = a ++ b.
Proof.
  intros Ha Hb. unfold dict_remove. rewrite List.filter_app. cbn.
  rewrite bool_decide_eq_true_2 by done. cbn.
  fold (dict_remove k a). fold (dict_remove k b).
  by rewrite !dict_remove_absent.
Qed.

Lemma filter_live_ses w w' (l : list (string * handle)) :
  ses w' = ses w → filter (live w') l = filter (live w) l.
Proof. intros Hs. apply list_filter_iff. intros e. unfold live. by rewrite Hs. Qed.

(** The registry while the loop runs: what is left of the entries
    already seen, then the entries still to come. *)
Lemma for_each_prunes now : ∀ l pre w w',
  NoDup (pre ++ l).*1 →
  torrent_handles w = filter (live w) pre ++ l →
  for_each (monitor_entry now) l w = (Ok tt, w') →
  torrent_handles w' = filter (live w) (pre ++ l).
Proof.
  induction l as [|[k h] l IH]; intros pre w w' Hnd Hreg Hrun.
  { cbn in Hrun. injection Hrun as <-. by rewrite app_nil_r in *. }
  rewrite for_each_cons in Hrun.
  pose proof (monitor_entry_frame now (k, h) w) as (Hses & _).
  assert ((k ∉ pre.*1) ∧ (k ∉ l.*1)) as [Hpre Hl].
  { rewrite fmap_app, fmap_cons in Hnd.
    apply NoDup_app in Hnd as [_ [Hdis Hnd]].
    apply NoDup_cons in Hnd as [Hk _]. split; [|done].
    intros Hin. apply (Hdis k Hin). apply list_elem_of_here. }
  assert (k ∉ (filter (live w) pre).*1) as Hfpre.
  { intros Hin. apply list_elem_of_fmap_1 in Hin as (e & -> & He).
    apply list_elem_of_filter in He as [_ He].
    apply Hpre. by apply list_elem_of_fmap_2. }
  assert (pre ++ (k, h) :: l = (pre ++ [(k, h)]) ++ l) as Hmid
    by (by rewrite <- (assoc_L (++))).
  destruct (monitor_entry_cases now k h w)
    as [[Hdead Hr]|[(t & x & _ & _ & Hr)|(t & eta & Ht & _ & Hr)]];
    rewrite Hr in Hrun, Hses; [| done |].
  - unfold del_torrent_handle in Hrun, Hses. cbn in Hrun, Hses.
    destruct (dict_get k (torrent_handles w)) eqn:E; [|done]. cbn in Hses.
    rewrite Hmid.
    replace (filter (live w) ((pre ++ [(k, h)]) ++ l))
      with (filter (live
              (with_torrent_handles (dict_remove k)
                 (with_logger (λ l0, l0 ++ [Warning_invalid_handle k]) w)))
              ((pre ++ [(k, h)]) ++ l))
      by (by apply filter_live_ses).
    apply IH; [by rewrite <- Hmid| |done].
    rewrite (filter_live_ses w) by done.
    cbn. fold (@dict_remove handle k (torrent_handles w)).
    rewrite Hreg, dict_remove_middle by done.
    rewrite filter_app, filter_cons_False, filter_nil, app_nil_r; [done|].
    unfold live. cbn. rewrite Hdead. by intros [? ?].
  - rewrite Hmid.
    cbn in Hses.
    rewrite <- (filter_live_ses w (entry_ok_world now k (t_status t) eta w)) by done.
    apply IH; [by rewrite <- Hmid| |done].
    rewrite (filter_live_ses w) by done.
    assert (torrent_handles (entry_ok_world now k (t_status t) eta w) = torrent_handles w)
      as -> by (unfold entry_ok_world;
                by destruct (truthy _), (is_seeding _ && _), (negb _)).
    rewrite Hreg, filter_app, filter_cons_True, filter_nil.
    + by rewrite <- (assoc_L (++)).
    + unfold live. cbn. by rewrite Ht.
Qed.

(** X4.  A pass that ran to its end has unregistered exactly the
    transfers whose handle was no longer valid: the registry is the former
    one, in the same order, without them; the engine is as it was. *)
Theorem pass_prunes_dead_handles now w :
  NoDup (torrent_handles w).*1 →
  (monitor_tick now w).1 = 2 →
  torrent_handles (monitor_tick now w).2 = filter (live w) (torrent_handles w) ∧
  ses (monitor_tick now w).2 = ses w.
Proof.
  intros Hnd Hend. rewrite monitor_tick_run in Hend |- *.
  pose proof (for_each_ses now (torrent_handles w) w) as Hses.
  destruct (for_each _ _ w) as [[[]|x] w'] eqn:Hrun; [|done].
  rewrite send_updates_run. cbn in *. split; [|done].
  by apply (for_each_prunes now (torrent_handles w) [] w w').
Qed.

Lemma pass_prunes_dead_handles_witness :
  NoDup (torrent_handles w_dropped).*1 ∧
  (monitor_tick 12 w_dropped).1 = 2 ∧
  torrent_handles w_dropped = [("a", 0%nat); ("b", 1%nat)] ∧
  filter (live w_dropped) (torrent_handles w_dropped) = [("b", 1%nat)] ∧
  torrent_handles (monitor_tick 12 w_dropped).2
    = filter (live w_dropped) (torrent_handles w_dropped).
Proof.
  assert (NoDup (torrent_handles w_dropped).*1) as Hnd.
  { apply (bool_decide_unpack _). vm_compute. exact I. }
  assert ((monitor_tick 12 w_dropped).1 = 2) as Hend by (vm_compute; reflexivity).
  split_and!; [exact Hnd|exact Hend|reflexivity|vm_compute; reflexivity|].
  exact (proj1 (pass_prunes_dead_handles 12 w_dropped Hnd Hend)).
Defined.

(** ** What a pass never does *)

Lemma same_identity_refl d : same_identity d d.
Proof. by repeat split. Qed.

Lemma same_identity_trans d1 d2 d3 :
  same_identity d1 d2 → same_identity d2 d3 → same_identity d1 d3.
Proof.
  unfold same_identity. intros (?&?&?&?&?&?&?&?) (?&?&?&?&?&?&?&?).
  split_and!; congruence.
Qed.

Lemma same_identity_polled now status eta d : same_identity d (polled now status eta d).
Proof. unfold polled. destruct (_ && _); by repeat split. Qed.

Lemma Forall2_same_identity_refl c : Forall2 same_identity c c.
Proof. induction c; constructor; auto using same_identity_refl. Qed.

Lemma Forall2_same_identity_trans c1 : ∀ c2 c3,
  Forall2 same_identity c1 c2 → Forall2 same_identity c2 c3 →
  Forall2 same_identity c1 c3.
Proof.
  intros c2 c3 H12. revert c3.
  induction H12; intros c3 H23; inversion H23; subst; constructor;
    eauto using same_identity_trans.
Qed.

Lemma Forall2_same_identity_update_one k f c :
  (∀ d, same_identity d (f d)) → Forall2 same_identity c (update_one k f c).
Proof.
  intros Hf. induction c as [|d c IH]; cbn; [constructor|].
  case_decide; constructor; auto using same_identity_refl, Forall2_same_identity_refl.
Qed.

(** An entry changes the store by at most one [update_one] of [polled]. *)
Lemma monitor_entry_db now e w :
  db_torrents (monitor_entry now e w).2 = db_torrents w ∨
  ∃ status eta,
    db_torrents (monitor_entry now e w).2
      = update_one e.1 (polled now status eta) (db_torrents w).
Proof.
  destruct e as [k h]. cbn.
  destruct (monitor_entry_cases now k h w)
    as [[_ ->]|[(t & x & _ & _ & ->)|(t & eta & _ & _ & ->)]]; cbn.
  - left. unfold del_torrent_handle. by destruct (dict_get _ _).
  - left. unfold entry_raised_world. by destruct (truthy _).
  - right. exists (t_status t), eta. unfold entry_ok_world.
    by destruct (truthy _), (is_seeding _ && _), (negb _).
Qed.

(** X5.  A pass, however it ends, never acts on the engine, and neither
    adds, removes nor reorders records; of each record it keeps the
    identifier, the name, the size, the creation time, the file path, the
    speed limits and the scheduled start. *)
Theorem pass_keeps_identity now w :
  ses (monitor_tick now w).2 = ses w ∧
  Forall2 same_identity (db_torrents w) (db_torrents (monitor_tick now w).2).
Proof.
  assert (ses (for_each (monitor_entry now) (torrent_handles w) w).2 = ses w ∧
          Forall2 same_identity (db_torrents w)
            (db_torrents (for_each (monitor_entry now) (torrent_handles w) w).2))
    as [Hses Hdb].
  { apply (for_each_invariant
             (λ w1, ses w1 = ses w ∧
                    Forall2 same_identity (db_torrents w) (db_torrents w1))).
    - intros e w1 _ [Hs Hd]. split.
      + rewrite <- Hs. apply monitor_entry_frame.
      + eapply Forall2_same_identity_trans; [exact Hd|].
        destruct (monitor_entry_db now e w1) as [->|(status & eta & ->)].
        * apply Forall2_same_identity_refl.
        * apply Forall2_same_identity_update_one. apply same_identity_polled.
    - split; [done|apply Forall2_same_identity_refl]. }
  rewrite monitor_tick_run.
  destruct (for_each _ _ w) as [[[]|x] w1]; cbn in *; [|done].
  by rewrite send_updates_run.
Qed.

(** X6.  A pass, however it ends, takes no entry out of
    [download_stats], and the entries it adds are those of registered
    identifiers. *)
Theorem pass_only_adds_stats now w tid :
  (is_Some (download_stats w !! tid) →
   is_Some (download_stats (monitor_tick now w).2 !! tid)) ∧
  (is_Some (download_stats (monitor_tick now w).2 !! tid) →
   is_Some (download_stats w !! tid) ∨ is_Some (dict_get tid (torrent_handles w))).
Proof.
  split; [apply monitor_tick_keeps_stats|].
  intros Hafter.
  destruct (decide (tid ∈ (torrent_handles w).*1)) as [Hin|Hnotin].
  - right. apply list_elem_of_fmap_1 in Hin as (e & -> & He).
    by apply dict_get_entry.
  - left. pose proof (monitor_tick_slice now w tid) as Hs.
    rewrite for_each_slice in Hs by done.
    unfold slice in Hs. injection Hs as Hs _ _. by rewrite <- Hs.
Qed.

Lemma for_each_subscribers now l w :
  websocket_connections (for_each (monitor_entry now) l w).2 = websocket_connections w ∧
  ws_closed (for_each (monitor_entry now) l w).2 = ws_closed w ∧
  ws_received (for_each (monitor_entry now) l w).2 = ws_received w.
Proof.
  apply (for_each_invariant
           (λ w1, websocket_connections w1 = websocket_connections w ∧
                  ws_closed w1 = ws_closed w ∧ ws_received w1 = ws_received w));
    [|done].
  intros e w1 _ (<- & <- & <-).
  destruct (monitor_entry_frame now e w1) as (_ & ? & ? & ? & _). done.
Qed.

(** X7.  In a pass that runs to its end, every subscriber whose
    connection is open is sent one message, which holds [download_stats]
    as the pass leaves it, all transfers polled; the subscribers whose
    send failed are dropped. *)
Theorem pass_broadcasts_once now w :
  (monitor_tick now w).1 = 2 →
  ws_received (monitor_tick now w).2 =
    ws_received w ++
      ((λ ws, (ws, download_stats (monitor_tick now w).2)) <$>
         still_open w (websocket_connections w)) ∧
  websocket_connections (monitor_tick now w).2
    = still_open w (websocket_connections w).
Proof.
  intros Hend. rewrite monitor_tick_run in Hend |- *.
  pose proof (for_each_subscribers now (torrent_handles w) w) as (Hc & Hcl & Hr).
  destruct (for_each _ _ w) as [[[]|x] w1]; [|done].
  rewrite send_updates_run. cbn in *. unfold still_open. by rewrite Hc, Hcl, Hr.
Qed.

Lemma pass_broadcasts_once_witness :
  (monitor_tick 12 w_subscribers).1 = 2 ∧
  still_open w_subscribers (websocket_connections w_subscribers) = [7; 1; 3]%nat ∧
  websocket_connections (monitor_tick 12 w_subscribers).2
    = still_open w_subscribers (websocket_connections w_subscribers).
Proof.
  assert ((monitor_tick 12 w_subscribers).1 = 2) as Hend by (vm_compute; reflexivity).
  split_and!; [exact Hend|vm_compute; reflexivity|].
  exact (proj2 (pass_broadcasts_once 12 w_subscribers Hend)).
Defined.

(** ** Pause, resume and update *)

Lemma pause_torrent_run tid h t w :
  dict_get tid (torrent_handles w) = Some h →
  torrents (ses w) !! h = Some t →
  pause_torrent tid w =
    (Ok "Torrent paused",
     with_db_torrents (update_one tid (set_status "paused"))
       (with_ses (λ s, {| torrents := alter (set_paused true) h (torrents s);
                          next_handle := next_handle s |}) w)).
Proof.
  intros H Ht. unfold pause_torrent. run. rewrite H.
  unfold handle_pause. by rewrite (alter_torrent_live _ _ _ t).
Qed.

Lemma resume_torrent_run tid h t w :
  dict_get tid (torrent_handles w) = Some h →
  torrents (ses w) !! h = Some t →
  resume_torrent tid w =
    (Ok "Torrent resumed",
     with_db_torrents (update_one tid (set_status "downloading"))
       (with_ses (λ s, {| torrents := alter (set_paused false) h (torrents s);
                          next_handle := next_handle s |}) w)).
Proof.
  intros H Ht. unfold resume_torrent. run. rewrite H.
  unfold handle_resume. by rewrite (alter_torrent_live _ _ _ t).
Qed.

Lemma set_paused_same t : set_paused (paused (t_status t)) t = t.
Proof. by destruct t as [? [] ? ? ? ?]. Qed.

Lemma set_paused_twice b b' t : set_paused b (set_paused b' t) = set_paused b t.
Proof. done. Qed.

Lemma update_one_idem k f c :
  (∀ d, d_id (f d) = d_id d) → (∀ d, f (f d) = f d) →
  update_one k f (update_one k f c) = update_one k f c.
Proof.
  intros Hid Hf. rewrite update_one_twice by done.
  induction c as [|d c IH]; [done|]. cbn. case_decide; [by rewrite Hf|by rewrite IH].
Qed.

(** X8.  Pausing a registered transfer whose handle is valid succeeds:
    the engine holds it paused; its record, if any, gets the status
    [paused] and is otherwise unchanged; the other records, the registry
    and [download_stats] are untouched; and pausing again at once changes
    nothing more. *)
Theorem pause_torrent_registered tid h t w :
  dict_get tid (torrent_handles w) = Some h →
  torrents (ses w) !! h = Some t →
  (pause_torrent tid w).1 = Ok "Torrent paused" ∧
  engine_paused tid (pause_torrent tid w).2 = Some true ∧
  find_one tid (db_torrents (pause_torrent tid w).2)
    = set_status "paused" <$> find_one tid (db_torrents w) ∧
  (∀ other, other ≠ tid →
     find_one other (db_torrents (pause_torrent tid w).2)
       = find_one other (db_torrents w)) ∧
  torrent_handles (pause_torrent tid w).2 = torrent_handles w ∧
  download_stats (pause_torrent tid w).2 = download_stats w ∧
  pause_torrent tid (pause_torrent tid w).2 = pause_torrent tid w.
Proof.
  intros Hreg Ht.
  assert (pause_torrent tid (pause_torrent tid w).2 = pause_torrent tid w) as Hidem.
  { rewrite (pause_torrent_run tid h t w) by done. cbn [snd].
    rewrite (pause_torrent_run tid h (set_paused true t)); [|done|].
    - f_equal. unfold with_db_torrents, with_ses. cbn. f_equal.
      + f_equal. rewrite alter_alter_eq. by apply alter_ext.
      + by apply update_one_idem.
    - cbn. by rewrite lookup_alter_eq, Ht. }
  split_and!; [..|exact Hidem]; rewrite (pause_torrent_run tid h t) by done; cbn;
    try done.
  - unfold engine_paused. cbn. rewrite Hreg. cbn.
    by rewrite lookup_alter_eq, Ht.
  - by apply find_one_update_one_eq.
  - intros other Hne. by apply find_one_update_one_ne.
Qed.

Lemma pause_torrent_registered_witness :
  dict_get "a" (torrent_handles w_polled) = Some 0%nat ∧
  torrents (ses w_polled) !! 0%nat = Some (sample_torrent "ha" status_downloading) ∧
  (pause_torrent "a" w_polled).1 = Ok "Torrent paused" ∧
  engine_paused "a" w_polled = Some false ∧
  engine_paused "a" (pause_torrent "a" w_polled).2 = Some true.
Proof.
  assert (torrents (ses w_polled) !! 0%nat
          = Some (sample_torrent "ha" status_downloading)) as Ht
    by (vm_compute; reflexivity).
  split_and!; [reflexivity|exact Ht| |vm_compute; reflexivity|].
  - exact (proj1 (pause_torrent_registered "a" 0%nat _ w_polled eq_refl Ht)).
  - exact (proj1 (proj2 (pause_torrent_registered "a" 0%nat _ w_polled eq_refl Ht))).
Defined.

(** X9.  Resuming after pausing a transfer that was running, its handle
    being valid, leaves the engine exactly as it was before the pause, and
    the registry and [download_stats] too; but the record now says
    [downloading], whatever status it showed before. *)
Theorem resume_torrent_undoes_pause tid h t w :
  dict_get tid (torrent_handles w) = Some h →
  torrents (ses w) !! h = Some t →
  paused (t_status t) = false →
  (resume_torrent tid (pause_torrent tid w).2).1 = Ok "Torrent resumed" ∧
  ses (resume_torrent tid (pause_torrent tid w).2).2 = ses w ∧
  torrent_handles (resume_torrent tid (pause_torrent tid w).2).2 = torrent_handles w ∧
  download_stats (resume_torrent tid (pause_torrent tid w).2).2 = download_stats w ∧
  find_one tid (db_torrents (resume_torrent tid (pause_torrent tid w).2).2)
    = set_status "downloading" <$> find_one tid (db_torrents w) ∧
  (∀ other, other ≠ tid →
     find_one other (db_torrents (resume_torrent tid (pause_torrent tid w).2).2)
       = find_one other (db_torrents w)).
Proof.
  intros Hreg Ht Hrun.
  rewrite (pause_torrent_run tid h t w) by done. cbn [snd].
  rewrite (resume_torrent_run tid h (set_paused true t));
    [|done|cbn; by rewrite lookup_alter_eq, Ht].
  cbn. split_and!; try done.
  - destruct (ses w) as [ts nh] eqn:Es. cbn in *. f_equal.
    rewrite alter_alter_eq. apply alter_id. intros t' Ht'. cbn.
    assert (t' = t) as -> by congruence.
    change (set_paused false t = t). rewrite <- Hrun. apply set_paused_same.
  - rewrite update_one_twice by done.
    by rewrite find_one_update_one_eq.
  - intros other Hne. rewrite update_one_twice by done.
    by rewrite find_one_update_one_ne.
Qed.

(** The seeding transfer ["a"], recorded as completed at 10. *)
Lemma resume_torrent_undoes_pause_witness :
  dict_get "a" (torrent_handles w_seeding_10) = Some 0%nat ∧
  torrents (ses w_seeding_10) !! 0%nat = Some (sample_torrent "ha" status_seeding) ∧
  paused (t_status (sample_torrent "ha" status_seeding)) = false ∧
  ses (resume_torrent "a" (pause_torrent "a" w_seeding_10).2).2 = ses w_seeding_10 ∧
  d_status <$> find_one "a" (db_torrents w_seeding_10) = Some "completed" ∧
  find_one "a" (db_torrents (resume_torrent "a" (pause_torrent "a" w_seeding_10).2).2)
    = set_status "downloading" <$> find_one "a" (db_torrents w_seeding_10).
Proof.
  assert (torrents (ses w_seeding_10) !! 0%nat
          = Some (sample_torrent "ha" status_seeding)) as Ht
    by (vm_compute; reflexivity).
  pose proof (resume_torrent_undoes_pause "a" 0%nat _ w_seeding_10 eq_refl Ht eq_refl)
    as (_ & Hses & _ & _ & Hdoc & _).
  split_and!;
    [reflexivity|exact Ht|reflexivity|exact Hses|vm_compute; reflexivity|exact Hdoc].
Defined.

(** X10.  The pause of a transfer that was running does not last: every
    torrent the server adds is auto-managed, and once the engine has
    managed its queue the torrent is as it was before the pause, so that
    the next pass writes the status it would have written without the
    pause, in place of the [paused] that the route had stored. *)
Theorem pause_then_pass tid h t d now w :
  NoDup (torrent_handles w).*1 →
  (tid, h) ∈ torrent_handles w →
  torrents (ses w) !! h = Some t →
  t_auto_managed t = true →
  paused (t_status t) = false →
  find_one tid (db_torrents w) = Some d →
  (monitor_tick now (engine_auto_manages h (pause_torrent tid w).2)).1 = 2 →
  d_status <$> find_one tid (db_torrents (pause_torrent tid w).2) = Some "paused" ∧
  engine_paused tid (pause_torrent tid w).2 = Some true ∧
  ses (engine_auto_manages h (pause_torrent tid w).2) = ses w ∧
  d_status <$>
    find_one tid
      (db_torrents (monitor_tick now (engine_auto_manages h (pause_torrent tid w).2)).2)
    = Some (derive_status (t_status t)) ∧
  derive_status (t_status t) ≠ "paused".
Proof.
  intros Hnd Hin Ht Hauto Hrun Hd Hend.
  pose proof (dict_get_NoDup _ _ _ Hnd Hin) as Hreg.
  rewrite (pause_torrent_run tid h t w) in Hend |- * by done. cbn [snd] in *.
  assert (ses (engine_auto_manages h
                 (with_db_torrents (update_one tid (set_status "paused"))
                    (with_ses (λ s, {| torrents := alter (set_paused true) h (torrents s);
                                       next_handle := next_handle s |}) w)))
          = ses w) as Hses.
  { destruct (ses w) as [ts nh] eqn:Es. unfold engine_auto_manages. cbn.
    rewrite Es. cbn in *. f_equal.
    rewrite alter_alter_eq. apply alter_id. intros t' Ht'.
    assert (t' = t) as -> by congruence. cbn. rewrite Hauto.
    change (set_paused false t = t). rewrite <- Hrun. apply set_paused_same. }
  split_and!.
  - cbn. rewrite find_one_update_one_eq by done. by rewrite Hd.
  - unfold engine_paused. cbn. rewrite Hreg. cbn. by rewrite lookup_alter_eq, Ht.
  - exact Hses.
  - set (we := engine_auto_manages h _) in *.
    destruct (monitor_tick_polled now we tid h t (set_status "paused" d))
      as (eta & _ & Hslice); try done.
    + by rewrite Hses.
    + cbn. rewrite find_one_update_one_eq by done. by rewrite Hd.
    + unfold slice in Hslice. injection Hslice as _ _ ->.
      apply (f_equal Some). apply polled_status.
  - unfold derive_status. rewrite Hrun.
    destruct (is_seeding _); [done|].
    repeat (case_decide; [done|]). by destruct (truthy _).
Qed.

Lemma pause_then_pass_witness :
  NoDup (torrent_handles w_polled).*1 ∧
  ("a", 0%nat) ∈ torrent_handles w_polled ∧
  torrents (ses w_polled) !! 0%nat = Some (sample_torrent "ha" status_downloading) ∧
  (monitor_tick 12 (engine_auto_manages 0%nat (pause_torrent "a" w_polled).2)).1 = 2 ∧
  d_status <$> find_one "a" (db_torrents (pause_torrent "a" w_polled).2)
    = Some "paused" ∧
  d_status <$>
    find_one "a"
      (db_torrents
         (monitor_tick 12 (engine_auto_manages 0%nat (pause_torrent "a" w_polled).2)).2)
    = Some "downloading".
Proof.
  assert (NoDup (torrent_handles w_polled).*1) as Hnd.
  { apply (bool_decide_unpack _). vm_compute. exact I. }
  assert (("a", 0%nat) ∈ torrent_handles w_polled) as Hin
    by apply list_elem_of_here.
  assert (torrents (ses w_polled) !! 0%nat
          = Some (sample_torrent "ha" status_downloading)) as Ht
    by (vm_compute; reflexivity).
  assert (∃ d, find_one "a" (db_torrents w_polled) = Some d) as [d Hd]
    by (vm_compute; eauto).
  assert ((monitor_tick 12
             (engine_auto_manages 0%nat (pause_torrent "a" w_polled).2)).1 = 2)
    as Hend by (vm_compute; reflexivity).
  pose proof (pause_then_pass "a" 0%nat _ d 12 w_polled Hnd Hin Ht eq_refl eq_refl
                Hd Hend) as (H1 & _ & _ & H2 & _).
  split_and!; [exact Hnd|exact Hin|exact Ht|exact Hend|exact H1|exact H2].
Defined.

(** X11.  Resume and update refuse an identifier that is not registered
    with the 404 error, and change nothing at all. *)
Theorem unknown_torrent_is_refused tid u w :
  dict_get tid (torrent_handles w) = None →
  resume_torrent tid w = (Raise (HTTPException 404 (Literal "Torrent not found")), w) ∧
  update_torrent tid u w = (Raise (HTTPException 404 (Literal "Torrent not found")), w).
Proof.
  intros H. unfold resume_torrent, update_torrent. run. by rewrite H.
Qed.

Lemma unknown_torrent_is_refused_witness :
  dict_get "id2" (torrent_handles w_orphan) = None ∧
  resume_torrent "id2" w_orphan
    = (Raise (HTTPException 404 (Literal "Torrent not found")), w_orphan).
Proof.
  split; [reflexivity|].
  exact (proj1 (unknown_torrent_is_refused "id2"
                  {| u_download_speed_limit := Some 5; u_upload_speed_limit := None;
                     u_scheduled_start := None |} w_orphan eq_refl)).
Defined.

Lemma set_update_dict_empty u d :
  update_dict_nonempty u = false → set_update_dict u d = d.
Proof.
  destruct u as [[dl|] [ul|] [st|]]; cbn; try done. intros _. by destruct d.
Qed.

(** X12.  Updating a registered transfer whose handle is valid, with
    limits that fit a C [int], succeeds; each limit that the request
    carries, zero included, is handed to the engine and stored in the
    record, together with a scheduled start if there is one; what the
    request leaves out stays as it was, in the engine and in the record;
    a request that carries nothing changes nothing. *)
Theorem update_torrent_applies tid h t u w :
  dict_get tid (torrent_handles w) = Some h →
  torrents (ses w) !! h = Some t →
  c_int (default 0 (u_download_speed_limit u)) = true →
  c_int (default 0 (u_upload_speed_limit u)) = true →
  (update_torrent tid u w).1 = Ok "Torrent updated" ∧
  t_download_limit <$> torrents (ses (update_torrent tid u w).2) !! h
    = Some (match u_download_speed_limit u with
            | Some v => Some v
            | None => t_download_limit t
            end) ∧
  t_upload_limit <$> torrents (ses (update_torrent tid u w).2) !! h
    = Some (match u_upload_speed_limit u with
            | Some v => Some v
            | None => t_upload_limit t
            end) ∧
  t_status <$> torrents (ses (update_torrent tid u w).2) !! h = Some (t_status t) ∧
  find_one tid (db_torrents (update_torrent tid u w).2)
    = set_update_dict u <$> find_one tid (db_torrents w) ∧
  (∀ other, other ≠ tid →
     find_one other (db_torrents (update_torrent tid u w).2)
       = find_one other (db_torrents w)) ∧
  torrent_handles (update_torrent tid u w).2 = torrent_handles w ∧
  download_stats (update_torrent tid u w).2 = download_stats w ∧
  (update_dict_nonempty u = false → (update_torrent tid u w).2 = w).
Proof.
  intros Hreg Ht Hdl Hul.
  unfold update_torrent, when_some, when, set_download_limit, set_upload_limit,
    alter_torrent. run. rewrite Hreg.
  destruct u as [[dl|] [ul|] [st|]]; cbn in Hdl, Hul |- *;
    rewrite ?Hdl, ?Hul; cbn; rewrite ?Ht; cbn;
    rewrite ?lookup_alter_eq, ?Ht; cbn;
    (split_and!; [done|..]);
    rewrite ?lookup_alter_eq, ?Ht; try done;
    try (by rewrite find_one_update_one_eq);
    try (intros other Hne; by rewrite find_one_update_one_ne).
  destruct (find_one tid (db_torrents w)) as [d|]; [|done].
  cbn. by rewrite set_update_dict_empty.
Qed.

(** A download limit of zero for ["a"]. *)
Lemma update_torrent_applies_witness :
  dict_get "a" (torrent_handles w_polled) = Some 0%nat ∧
  torrents (ses w_polled) !! 0%nat = Some (sample_torrent "ha" status_downloading) ∧
  c_int 0 = true ∧
  (update_torrent "a"
     {| u_download_speed_limit := Some 0; u_upload_speed_limit := None;
        u_scheduled_start := None |} w_polled).1 = Ok "Torrent updated" ∧
  d_download_speed_limit <$> find_one "a" (db_torrents w_polled) = Some None ∧
  d_download_speed_limit <$>
    find_one "a"
      (db_torrents
         (update_torrent "a"
            {| u_download_speed_limit := Some 0; u_upload_speed_limit := None;
               u_scheduled_start := None |} w_polled).2)
    = Some (Some 0).
Proof.
  assert (torrents (ses w_polled) !! 0%nat
          = Some (sample_torrent "ha" status_downloading)) as Ht
    by (vm_compute; reflexivity).
  split_and!; [reflexivity|exact Ht|reflexivity| |vm_compute; reflexivity..].
  exact (proj1 (update_torrent_applies "a" 0%nat _
                  {| u_download_speed_limit := Some 0; u_upload_speed_limit := None;
                     u_scheduled_start := None |} w_polled eq_refl Ht eq_refl eq_refl)).
Defined.

(** ** Delete *)

(** X23.  Delete, for an identifier that is not registered or whose
    handle is valid, succeeds: no record of that identifier remains and
    the other records are kept; a registered identifier is unregistered
    and its torrent leaves the session.  Identifiers are unique in the
    store. *)
Theorem delete_torrent_removes_record tid w :
  NoDup (d_id <$> db_torrents w) →
  (∀ h, dict_get tid (torrent_handles w) = Some h →
        is_Some (torrents (ses w) !! h)) →
  (delete_torrent tid w).1 = Ok "Torrent deleted" ∧
  find_one tid (db_torrents (delete_torrent tid w).2) = None ∧
  (∀ other, other ≠ tid →
     find_one other (db_torrents (delete_torrent tid w).2)
       = find_one other (db_torrents w)) ∧
  dict_get tid (torrent_handles (delete_torrent tid w).2) = None ∧
  (∀ h, dict_get tid (torrent_handles w) = Some h →
     torrents (ses (delete_torrent tid w).2) !! h = None).
Proof.
  intros Hnd Hlive. rewrite delete_torrent_run.
  destruct (dict_get tid (torrent_handles w)) as [h|] eqn:E; cbn.
  - rewrite bool_decide_eq_true_2 by auto. cbn.
    split_and!; [done|by apply find_one_delete_one| | |].
    + intros other Hne. by apply find_one_delete_one_ne.
    + apply dict_get_remove_eq.
    + intros h' [= <-]. apply lookup_delete_eq.
  - split_and!; [done|by apply find_one_delete_one| |done|done].
    intros other Hne. by apply find_one_delete_one_ne.
Qed.

(** The orphan ["id2"], left in the store by an upload the engine
    refused, is deleted. *)
Lemma delete_torrent_removes_record_witness :
  NoDup (d_id <$> db_torrents w_orphan) ∧
  is_Some (find_one "id2" (db_torrents w_orphan)) ∧
  dict_get "id2" (torrent_handles w_orphan) = None ∧
  (delete_torrent "id2" w_orphan).1 = Ok "Torrent deleted" ∧
  find_one "id2" (db_torrents (delete_torrent "id2" w_orphan).2) = None.
Proof.
  assert (NoDup (d_id <$> db_torrents w_orphan)) as Hnd.
  { apply (bool_decide_unpack _). vm_compute. exact I. }
  assert (∀ h, dict_get "id2" (torrent_handles w_orphan) = Some h →
               is_Some (torrents (ses w_orphan) !! h)) as Hlive
    by (intros h Hh; vm_compute in Hh; discriminate).
  split_and!; [exact Hnd|vm_compute; eauto|reflexivity|..].
  - exact (proj1 (delete_torrent_removes_record "id2" w_orphan Hnd Hlive)).
  - exact (proj1 (proj2 (delete_torrent_removes_record "id2" w_orphan Hnd Hlive))).
Defined.

(** X24.  Deleting a registered transfer whose handle is valid takes it
    out of [torrent_handles] and of [download_stats]; the global rates of
    [get_system_stats] are then the sums over the remaining entries, that
    is the former sums less the rates of the deleted transfer; and no
    later pass sends an entry for it. *)
Theorem delete_torrent_drops_rates tid h t w :
  dict_get tid (torrent_handles w) = Some h →
  torrents (ses w) !! h = Some t →
  dict_get tid (torrent_handles (delete_torrent tid w).2) = None ∧
  download_stats (delete_torrent tid w).2 !! tid = None ∧
  (∃ st, (get_system_stats (delete_torrent tid w).2).1 = Ok st ∧
         global_download_rate st
           = sum_rates s_download_rate (delete tid (download_stats w)) ∧
         global_upload_rate st
           = sum_rates s_upload_rate (delete tid (download_stats w))) ∧
  (∀ s, download_stats w !! tid = Some s →
     sum_rates s_download_rate (download_stats w)
       = s_download_rate s + sum_rates s_download_rate (delete tid (download_stats w)) ∧
     sum_rates s_upload_rate (download_stats w)
       = s_upload_rate s + sum_rates s_upload_rate (delete tid (download_stats w))) ∧
  (∀ instants, ∃ new,
     ws_received (monitor_torrents instants (delete_torrent tid w).2)
       = ws_received w ++ new ∧
     Forall (λ p, p.2 !! tid = None) new).
Proof.
  intros Hreg Ht. rewrite delete_torrent_run, Hreg.
  rewrite bool_decide_eq_true_2 by eauto.
  assert (dict_get tid (dict_remove tid (torrent_handles w)) = None) as H1
    by apply dict_get_remove_eq.
  assert (delete tid (download_stats w) !! tid = None) as H2
    by apply lookup_delete_eq.
  split_and!; cbn.
  - done.
  - done.
  - eexists. by split_and!.
  - intros s Hs. split; by apply sum_rates_delete.
  - intros instants.
    destruct (monitor_torrents_unregistered tid instants
                (with_db_torrents (delete_one tid)
                   (with_download_stats (delete tid)
                      (with_torrent_handles (dict_remove tid) (engine_drops h w)))))
      as (new & Hnew & Hall); [done..|].
    exists new. split; [exact Hnew|exact Hall].
Qed.

(** ["a"], polled at 10, is deleted. *)
Lemma delete_torrent_drops_rates_witness :
  dict_get "a" (torrent_handles w_polled) = Some 0%nat ∧
  torrents (ses w_polled) !! 0%nat = Some (sample_torrent "ha" status_downloading) ∧
  download_stats (delete_torrent "a" w_polled).2 !! "a" = None ∧
  global_download_rate <$> (get_system_stats w_polled).1 = Ok 200 ∧
  global_download_rate <$> (get_system_stats (delete_torrent "a" w_polled).2).1 = Ok 100.
Proof.
  assert (torrents (ses w_polled) !! 0%nat
          = Some (sample_torrent "ha" status_downloading)) as Ht
    by (vm_compute; reflexivity).
  split_and!; [reflexivity|exact Ht| |vm_compute; reflexivity..].
  exact (proj1 (proj2 (delete_torrent_drops_rates "a" 0%nat _ w_polled eq_refl Ht))).
Defined.

(** ** A handle that is no longer valid, a limit that does not fit *)

(** X25.  While an identifier is registered under a handle that is no
    longer valid, the routes that call the engine through it fail with
    the engine's [RuntimeError] and change nothing: pause, resume, delete,
    and an update that carries a limit.  An update that carries no limit
    makes no call and goes through. *)
Theorem stale_handle_fails_the_routes tid h w :
  dict_get tid (torrent_handles w) = Some h →
  torrents (ses w) !! h = None →
  pause_torrent tid w = (Raise (RuntimeError "invalid torrent handle used"), w) ∧
  resume_torrent tid w = (Raise (RuntimeError "invalid torrent handle used"), w) ∧
  delete_torrent tid w = (Raise (RuntimeError "invalid torrent handle used"), w) ∧
  (∀ u, is_Some (u_download_speed_limit u) ∨ is_Some (u_upload_speed_limit u) →
        c_int (default 0 (u_download_speed_limit u)) = true →
        c_int (default 0 (u_upload_speed_limit u)) = true →
        update_torrent tid u w
          = (Raise (RuntimeError "invalid torrent handle used"), w)) ∧
  (∀ u, u_download_speed_limit u = None → u_upload_speed_limit u = None →
        (update_torrent tid u w).1 = Ok "Torrent updated").
Proof.
  intros Hreg Hdead. split_and!.
  - unfold pause_torrent, handle_pause. run.
    by rewrite Hreg, alter_torrent_dead.
  - unfold resume_torrent, handle_resume. run.
    by rewrite Hreg, alter_torrent_dead.
  - rewrite delete_torrent_run, Hreg.
    rewrite bool_decide_eq_false_2; [done|]. rewrite Hdead. by intros [? ?].
  - intros u Hsome Hdl Hul.
    unfold update_torrent, when_some, set_download_limit, set_upload_limit. run.
    rewrite Hreg.
    destruct (u_download_speed_limit u) as [dl|], (u_upload_speed_limit u) as [ul|];
      cbn in Hdl, Hul |- *; rewrite ?Hdl, ?Hul, ?alter_torrent_dead by done;
      try done.
    destruct Hsome as [[? ?]|[? ?]]; done.
  - intros u Hdl Hul. unfold update_torrent, when_some, when. run.
    rewrite Hreg, Hdl, Hul. cbn. by destruct (update_dict_nonempty u).
Qed.

(** The engine has dropped ["a"], which is still registered. *)
Lemma stale_handle_fails_the_routes_witness :
  dict_get "a" (torrent_handles w_dropped) = Some 0%nat ∧
  torrents (ses w_dropped) !! 0%nat = None ∧
  pause_torrent "a" w_dropped
    = (Raise (RuntimeError "invalid torrent handle used"), w_dropped).
Proof.
  split_and!; [reflexivity..|].
  exact (proj1 (stale_handle_fails_the_routes "a" 0%nat w_dropped eq_refl eq_refl)).
Defined.

(** X26.  An update whose limit does not fit a C [int] fails with
    [OverflowError] and leaves the record as it was.  When it is the
    download limit nothing at all has changed; when the download limit
    fits and the upload limit does not, the engine has already been
    handed the download limit. *)
Theorem update_torrent_overflow tid h t u v w :
  dict_get tid (torrent_handles w) = Some h →
  torrents (ses w) !! h = Some t →
  c_int v = false →
  (u_download_speed_limit u = Some v →
   update_torrent tid u w = (Raise OverflowError, w)) ∧
  (∀ dl, u_download_speed_limit u = Some dl → c_int dl = true →
         u_upload_speed_limit u = Some v →
         (update_torrent tid u w).1 = Raise OverflowError ∧
         db_torrents (update_torrent tid u w).2 = db_torrents w ∧
         t_download_limit <$> torrents (ses (update_torrent tid u w).2) !! h
           = Some (Some dl) ∧
         t_upload_limit <$> torrents (ses (update_torrent tid u w).2) !! h
           = Some (t_upload_limit t)).
Proof.
  intros Hreg Ht Hv. split.
  - intros Hdl. unfold update_torrent, when_some, set_download_limit. run.
    by rewrite Hreg, Hdl, Hv.
  - intros dl Hdl Hfit Hul.
    unfold update_torrent, when_some, set_download_limit, set_upload_limit. run.
    rewrite Hreg, Hdl, Hul, Hfit, Hv, (alter_torrent_live _ _ _ t) by done. cbn.
    by rewrite lookup_alter_eq, Ht.
Qed.

(** A download limit of [2 ^ 31] for ["a"]. *)
Lemma update_torrent_overflow_witness :
  dict_get "a" (torrent_handles w_polled) = Some 0%nat ∧
  torrents (ses w_polled) !! 0%nat = Some (sample_torrent "ha" status_downloading) ∧
  c_int 2147483648 = false ∧
  update_torrent "a"
    {| u_download_speed_limit := Some 2147483648; u_upload_speed_limit := None;
       u_scheduled_start := None |} w_polled
    = (Raise OverflowError, w_polled).
Proof.
  assert (torrents (ses w_polled) !! 0%nat
          = Some (sample_torrent "ha" status_downloading)) as Ht
    by (vm_compute; reflexivity).
  split_and!; [reflexivity|exact Ht|reflexivity|].
  exact (proj1 (update_torrent_overflow "a" 0%nat _
                  {| u_download_speed_limit := Some 2147483648;
                     u_upload_speed_limit := None; u_scheduled_start := None |}
                  2147483648 w_polled eq_refl Ht eq_refl) eq_refl).
Defined.

(** ** Creating a transfer *)

Lemma find_one_insert_one_eq d c :
  find_one (d_id d) c = None → find_one (d_id d) (insert_one d c) = Some d.
Proof.
  unfold insert_one. induction c as [|d' c IH]; cbn.
  - by rewrite decide_True.
  - case_decide; [done|]. apply IH.
Qed.

Lemma find_one_insert_one_ne tid d c :
  tid ≠ d_id d → find_one tid (insert_one d c) = find_one tid c.
Proof.
  intros Hne. unfold insert_one. induction c as [|d' c IH]; cbn.
  - by rewrite decide_False.
  - case_decide; [done|]. apply IH.
Qed.

Lemma delete_one_insert_one d c :
  find_one (d_id d) c = None → delete_one (d_id d) (insert_one d c) = c.
Proof.
  unfold insert_one. induction c as [|d' c IH]; cbn.
  - by rewrite decide_True.
  - case_decide; [done|]. intros Hrest. by rewrite IH.
Qed.

Lemma dict_remove_set {V} k (v : V) d :
  dict_get k d = None → dict_remove k (dict_set k v d) = d.
Proof.
  induction d as [|[k' v'] d IH]; cbn.
  - unfold dict_remove. cbn. by rewrite bool_decide_eq_true_2.
  - case_decide; [done|]. intros Hrest. unfold dict_remove in *. cbn.
    rewrite bool_decide_eq_false_2 by done. cbn. by rewrite IH.
Qed.


(** X13.  An upload of a descriptor that parses, under a name ending in
    [.torrent], of a torrent the session does not hold yet, with limits
    that fit a C [int] and an identifier that is new to the store: the
    route returns the record it stored, with status [queued]; the
    identifier is registered with a fresh handle, whose torrent is
    auto-managed, not paused, has been re-announced, and has been handed
    the limits of the request that are not zero, and no limit otherwise;
    nothing changes for the other identifiers. *)
Theorem upload_torrent_registers lt_torrent_info file dl ul uuid4 now w info :
  endswith (filename file) ".torrent" = true →
  lt_torrent_info (file_content file) = Ok info →
  has_info_hash (ti_info_hash info) (ses w) = false →
  c_int (default 0 dl) = true →
  c_int (default 0 ul) = true →
  find_one uuid4 (db_torrents w) = None →
  (upload_torrent lt_torrent_info file dl ul uuid4 now w).1
    = Ok (TorrentInfo uuid4 (ti_name info) (ti_total_size info) dl ul now) ∧
  find_one uuid4 (db_torrents (upload_torrent lt_torrent_info file dl ul uuid4 now w).2)
    = Some (TorrentInfo uuid4 (ti_name info) (ti_total_size info) dl ul now) ∧
  dict_get uuid4
    (torrent_handles (upload_torrent lt_torrent_info file dl ul uuid4 now w).2)
    = Some (next_handle (ses w)) ∧
  torrents (ses (upload_torrent lt_torrent_info file dl ul uuid4 now w).2)
    !! next_handle (ses w)
    = Some {| t_info_hash := ti_info_hash info;
              t_status := fresh_status info;
              t_auto_managed := true;
              t_download_limit := limit_requested dl;
              t_upload_limit := limit_requested ul;
              t_reannounced := true |} ∧
  engine_paused uuid4 (upload_torrent lt_torrent_info file dl ul uuid4 now w).2
    = Some false ∧
  (∀ other, other ≠ uuid4 →
     slice other (upload_torrent lt_torrent_info file dl ul uuid4 now w).2
       = slice other w).
Proof.
  intros Hext Hparse Hfresh Hdl Hul Hnew.
  rewrite (upload_torrent_ok _ _ _ _ _ _ _ info) by done. cbn.
  split_and!.
  - done.
  - by apply (find_one_insert_one_eq (TorrentInfo uuid4 _ _ dl ul now)).
  - apply dict_get_set_eq.
  - apply lookup_insert_eq.
  - unfold engine_paused. cbn. rewrite dict_get_set_eq. cbn.
    by rewrite lookup_insert_eq.
  - intros other Hne. unfold slice. cbn. f_equal; [f_equal|].
    + by apply dict_get_set_ne.
    + by apply (find_one_insert_one_ne other (TorrentInfo uuid4 _ _ dl ul now)).
Qed.

(** A download limit of 50000 bytes per second, and an upload limit of
    zero, which is not handed on. *)
Lemma upload_torrent_registers_witness :
  endswith (filename movie_file) ".torrent" = true ∧
  sample_torrent_info (file_content movie_file)
    = Ok {| ti_name := "movie"; ti_total_size := 1000; ti_info_hash := "movie" |} ∧
  has_info_hash "movie" (ses w_empty) = false ∧
  c_int 50000 = true ∧
  c_int 0 = true ∧
  find_one "id1" (db_torrents w_empty) = None ∧
  dict_get "id1"
    (torrent_handles
       (upload_torrent sample_torrent_info movie_file (Some 50000) (Some 0) "id1" 1000
          w_empty).2)
    = Some 0%nat ∧
  (λ t, (t_download_limit t, t_upload_limit t)) <$>
    torrents
      (ses (upload_torrent sample_torrent_info movie_file (Some 50000) (Some 0) "id1"
              1000 w_empty).2) !! 0%nat
    = Some (Some 50000, None).
Proof.
  pose proof (upload_torrent_registers sample_torrent_info movie_file (Some 50000)
                (Some 0) "id1" 1000 w_empty
                {| ti_name := "movie"; ti_total_size := 1000; ti_info_hash := "movie" |}
                eq_refl eq_refl eq_refl eq_refl eq_refl eq_refl)
    as (_ & _ & Hreg & Ht & _).
  split_and!; [reflexivity..|exact Hreg|].
  exact (f_equal (fmap (λ t, (t_download_limit t, t_upload_limit t))) Ht).
Defined.



(** X15.  Deleting a transfer right after an upload that went through
    (limits that fit a C [int], a torrent new to the session) gives back
    the store and the registry as they were before the upload; its handle
    is no longer valid, and [download_stats] has no entry for it. *)
Theorem upload_then_delete lt_torrent_info file dl ul uuid4 now w info :
  endswith (filename file) ".torrent" = true →
  lt_torrent_info (file_content file) = Ok info →
  has_info_hash (ti_info_hash info) (ses w) = false →
  c_int (default 0 dl) = true →
  c_int (default 0 ul) = true →
  find_one uuid4 (db_torrents w) = None →
  dict_get uuid4 (torrent_handles w) = None →
  (delete_torrent uuid4
     (upload_torrent lt_torrent_info file dl ul uuid4 now w).2).1
    = Ok "Torrent deleted" ∧
  db_torrents
    (delete_torrent uuid4
       (upload_torrent lt_torrent_info file dl ul uuid4 now w).2).2
    = db_torrents w ∧
  torrent_handles
    (delete_torrent uuid4
       (upload_torrent lt_torrent_info file dl ul uuid4 now w).2).2
    = torrent_handles w ∧
  download_stats
    (delete_torrent uuid4
       (upload_torrent lt_torrent_info file dl ul uuid4 now w).2).2
    = delete uuid4 (download_stats w) ∧
  torrents
    (ses (delete_torrent uuid4
            (upload_torrent lt_torrent_info file dl ul uuid4 now w).2).2)
    !! next_handle (ses w) = None.
Proof.
  intros Hext Hparse Hfresh Hdl Hul Hnew Hunreg.
  rewrite (upload_torrent_ok _ _ _ _ _ _ _ info) by done. cbn [snd].
  rewrite delete_torrent_run. cbn. rewrite dict_get_set_eq. cbn.
  rewrite lookup_insert_eq.
  rewrite bool_decide_eq_true_2 by eauto. cbn.
  split_and!.
  - done.
  - by apply (delete_one_insert_one (TorrentInfo uuid4 _ _ dl ul now)).
  - by apply dict_remove_set.
  - done.
  - apply lookup_delete_eq.
Qed.

(** A second torrent uploaded to the server that holds ["a"] and ["b"],
    then deleted. *)
Lemma upload_then_delete_witness :
  endswith (filename movie_file) ".torrent" = true ∧
  sample_torrent_info (file_content movie_file)
    = Ok {| ti_name := "movie"; ti_total_size := 1000; ti_info_hash := "movie" |} ∧
  has_info_hash "movie" (ses w_polled) = false ∧
  c_int 0 = true ∧
  find_one "id1" (db_torrents w_polled) = None ∧
  dict_get "id1" (torrent_handles w_polled) = None ∧
  db_torrents
    (delete_torrent "id1"
       (upload_torrent sample_torrent_info movie_file None None "id1" 1000 w_polled).2).2
    = db_torrents w_polled.
Proof.
  assert (has_info_hash "movie" (ses w_polled) = false) as Hfresh
    by (vm_compute; reflexivity).
  split_and!;
    [reflexivity|reflexivity|exact Hfresh|reflexivity|reflexivity|reflexivity|].
  exact (proj1 (proj2
           (upload_then_delete sample_torrent_info movie_file None None
              "id1" 1000 w_polled
              {| ti_name := "movie"; ti_total_size := 1000; ti_info_hash := "movie" |}
              eq_refl eq_refl Hfresh eq_refl eq_refl eq_refl eq_refl))).
Defined.








(** ** The store as a whole *)

Lemma update_one_ids k f c :
  (∀ d, d_id (f d) = d_id d) → d_id <$> update_one k f c = d_id <$> c.
Proof.
  intros Hf. induction c as [|d c IH]; [done|]. cbn.
  case_decide; cbn; [by rewrite Hf|by rewrite IH].
Qed.

Lemma delete_one_ids_sublist k c : d_id <$> delete_one k c `sublist_of` d_id <$> c.
Proof.
  induction c as [|d c IH]; [done|]. cbn.
  case_decide; cbn; [by apply sublist_cons|by apply sublist_skip].
Qed.

Lemma monitor_tick_ids now w :
  d_id <$> db_torrents (monitor_tick now w).2 = d_id <$> db_torrents w.
Proof.
  rewrite monitor_tick_db.
  apply (for_each_invariant
           (λ w1, d_id <$> db_torrents w1 = d_id <$> db_torrents w)); [|done].
  intros e w1 _ <-.
  destruct (monitor_entry_db now e w1) as [->|(status & eta & ->)]; [done|].
  apply update_one_ids. intros d. apply polled_id.
Qed.

Lemma add_torrent_to_session_db lt_torrent_info torrent_data torrent_id params now w :
  db_torrents
    (add_torrent_to_session lt_torrent_info torrent_data torrent_id params now w).2
  = db_torrents w.
Proof.
  unfold add_torrent_to_session, add_torrent, when_limit, when, set_download_limit,
    set_upload_limit, force_reannounce, handle_pause, alter_torrent. run.
  destruct (lt_torrent_info torrent_data) as [info|e]; cbn; [|done].
  destruct (has_info_hash _ _); cbn; [done|].
  destruct (p_download_speed_limit params) as [dl|],
    (p_upload_speed_limit params) as [ul|],
    (p_scheduled_start params) as [st|]; cbn;
    repeat (first [progress engine_step | case_bool_decide | destruct (c_int _)]);
    done.
Qed.

(** An upload inserts one record, under the identifier drawn, or none. *)
Lemma upload_torrent_db lt_torrent_info file dl ul uuid4 now w :
  db_torrents (upload_torrent lt_torrent_info file dl ul uuid4 now w).2 = db_torrents w ∨
  ∃ d, d_id d = uuid4 ∧
       db_torrents (upload_torrent lt_torrent_info file dl ul uuid4 now w).2
         = insert_one d (db_torrents w).
Proof.
  unfold upload_torrent.
  destruct (endswith (filename file) ".torrent"); cbn; [|by left].
  unfold try_except at 1. unfold mbind at 1, M_bind at 1. unfold lift at 1.
  destruct (lt_torrent_info (file_content file)) as [info|e]; [|by left].
  right. eexists (TorrentInfo uuid4 _ _ dl ul now). split; [done|].
  run. cbn.
  pose proof (add_torrent_to_session_db lt_torrent_info (file_content file) uuid4
    {| p_download_speed_limit := dl; p_upload_speed_limit := ul;
       p_scheduled_start := None |} now
    (with_db_torrents
       (insert_one (TorrentInfo uuid4 (ti_name info) (ti_total_size info) dl ul now))
       w)) as Hdb.
  destruct (add_torrent_to_session _ _ _ _ _ _) as [[[|]|e] w1]; cbn in *;
    by rewrite Hdb.
Qed.

(** X17.  No two records of the store share an identifier, and this stays
    so through a pass and through every route, an upload included as long
    as the identifier it draws is not in the store yet. *)
Theorem store_identifiers_stay_unique lt_torrent_info w :
  NoDup (d_id <$> db_torrents w) →
  (∀ now, NoDup (d_id <$> db_torrents (monitor_tick now w).2)) ∧
  (∀ tid, NoDup (d_id <$> db_torrents (pause_torrent tid w).2)) ∧
  (∀ tid, NoDup (d_id <$> db_torrents (resume_torrent tid w).2)) ∧
  (∀ tid u, NoDup (d_id <$> db_torrents (update_torrent tid u w).2)) ∧
  (∀ tid, NoDup (d_id <$> db_torrents (delete_torrent tid w).2)) ∧
  (∀ file dl ul uuid4 now,
     find_one uuid4 (db_torrents w) = None →
     NoDup (d_id <$> db_torrents
                        (upload_torrent lt_torrent_info file dl ul uuid4 now w).2)).
Proof.
  intros Hnd. split_and!.
  - intros now. by rewrite monitor_tick_ids.
  - intros tid. unfold pause_torrent, handle_pause, alter_torrent. run.
    destruct (dict_get tid (torrent_handles w)) as [h|]; cbn; [|done].
    destruct (torrents (ses w) !! h); cbn; [|done].
    by rewrite update_one_ids.
  - intros tid. unfold resume_torrent, handle_resume, alter_torrent. run.
    destruct (dict_get tid (torrent_handles w)) as [h|]; cbn; [|done].
    destruct (torrents (ses w) !! h); cbn; [|done].
    by rewrite update_one_ids.
  - intros tid u.
    unfold update_torrent, when_some, when, set_download_limit, set_upload_limit,
      alter_torrent. run.
    destruct (dict_get tid (torrent_handles w)) as [h|]; cbn; [|done].
    destruct (torrents (ses w) !! h) as [t|] eqn:Et,
      (u_download_speed_limit u) as [dl|], (u_upload_speed_limit u) as [ul|],
      (update_dict_nonempty u); cbn;
      repeat (first [progress (cbn; rewrite ?lookup_alter_eq, ?Et; cbn)
                    | destruct (c_int _)]);
      by rewrite ?update_one_ids.
  - intros tid. rewrite delete_torrent_run.
    pose proof (sublist_NoDup _ _ Hnd (delete_one_ids_sublist tid (db_torrents w))).
    destruct (dict_get tid (torrent_handles w)); [|done].
    by case_bool_decide.
  - intros file dl ul uuid4 now Hnew.
    destruct (upload_torrent_db lt_torrent_info file dl ul uuid4 now w)
      as [->|(d & Hid & ->)]; [done|].
    unfold insert_one. rewrite fmap_app. cbn.
    apply NoDup_app. split_and!; [done| |apply NoDup_singleton].
    intros x Hx Hx'. apply list_elem_of_singleton in Hx' as ->.
    apply find_one_None in Hnew. apply Hnew. by rewrite <- Hid.
Qed.

Lemma store_identifiers_stay_unique_witness :
  NoDup (d_id <$> db_torrents w_orphan) ∧
  NoDup (d_id <$> db_torrents (monitor_tick 1002 w_orphan).2) ∧
  NoDup (d_id <$> db_torrents (delete_torrent "id2" w_orphan).2).
Proof.
  assert (NoDup (d_id <$> db_torrents w_orphan)) as Hnd.
  { apply (bool_decide_unpack _). vm_compute. exact I. }
  pose proof (store_identifiers_stay_unique sample_torrent_info w_orphan Hnd)
    as (Htick & _ & _ & _ & Hdel & _).
  split_and!; [exact Hnd|exact (Htick 1002)|exact (Hdel "id2")].
Defined.

Lemma count_disjoint (p q : document → bool) c :
  (∀ d, p d = true → q d = false) →
  count_documents p c + count_documents q c ≤ count_documents (λ _, true) c.
Proof.
  intros Hpq. unfold count_documents.
  induction c as [|d c IH]; cbn; [done|].
  destruct (p d) eqn:Hp.
  - rewrite (Hpq d Hp). cbn. lia.
  - destruct (q d); cbn; lia.
Qed.

(** X18.  The statistics route changes nothing; it counts every record
    as a download; the active ones (status [downloading] or [queued]) and
    the completed ones are counted apart and together never exceed the
    total; the bytes uploaded are always reported as zero. *)
Theorem get_system_stats_counts w :
  ∃ st, get_system_stats w = (Ok st, w) ∧
        total_downloads st = Z.of_nat (length (db_torrents w)) ∧
        0 ≤ active_downloads st ∧
        0 ≤ completed_downloads st ∧
        active_downloads st + completed_downloads st ≤ total_downloads st ∧
        total_uploaded st = 0.
Proof.
  eexists. split; [reflexivity|]. cbn. split_and!.
  - unfold count_documents. f_equal. f_equal.
    induction (db_torrents w) as [|d c IH]; cbn; [done|]. by rewrite IH.
  - unfold count_documents. lia.
  - unfold count_documents. lia.
  - apply count_disjoint. intros d Hd.
    apply orb_true_iff in Hd as [Hd|Hd]; apply bool_decide_eq_true in Hd;
      rewrite Hd; by apply bool_decide_eq_false.
  - done.
Qed.

(** X19.  The listing route changes nothing and returns at most a
    thousand records, newest first by creation time; each is a record of
    the store without the keys the model does not have, and when the
    store holds a thousand records or fewer, all of them are listed. *)
Theorem get_torrents_newest_first w :
  ∃ l, get_torrents w = (Ok l, w) ∧
       length l = Nat.min 1000 (length (db_torrents w)) ∧
       StronglySorted newer_first l ∧
       Forall (λ x, ∃ d, d ∈ db_torrents w ∧ x = TorrentInfo_of d) l ∧
       ((length (db_torrents w) ≤ 1000)%nat → l ≡ₚ TorrentInfo_of <$> db_torrents w).
Proof.
  eexists. split; [reflexivity|].
  pose proof (merge_sort_Permutation newer_first (db_torrents w)) as Hperm.
  split_and!.
  - by rewrite length_fmap, length_take, Hperm.
  - apply (StronglySorted_fmap _ newer_first newer_first); [done|].
    apply (StronglySorted_app_1_l _ _
             (drop 1000 (merge_sort newer_first (db_torrents w)))).
    rewrite take_drop. apply StronglySorted_merge_sort; apply _.
  - apply Forall_fmap, Forall_forall. intros d Hd. exists d. split; [|done].
    rewrite <- Hperm. eapply elem_of_sublist; [done|apply sublist_take].
  - intros Hle. rewrite take_ge; [by rewrite Hperm|].
    by rewrite Hperm.
Qed.

(** The two records of the sample store come back newest first. *)
Example get_torrents_sample :
  d_id <$> db_torrents w_polled = ["a"; "b"] ∧
  (λ l : list document, d_id <$> l) <$> (get_torrents w_polled).1 = Ok ["b"; "a"].
Proof. vm_compute. by split. Qed.

(** ** Subscribers coming and going *)

Lemma list_remove_snoc x l : x ∉ l → list_remove x (l ++ [x]) = Some l.
Proof.
  induction l as [|y l IH]; cbn; intros Hx.
  - by rewrite decide_True.
  - apply not_elem_of_cons in Hx as [Hne Hx].
    rewrite decide_False by done. by rewrite IH.
Qed.

Lemma list_remove_absent x l : x ∉ l → list_remove x l = None.
Proof.
  induction l as [|y l IH]; cbn; intros Hx; [done|].
  apply not_elem_of_cons in Hx as [Hne Hx].
  rewrite decide_False by done. by rewrite IH.
Qed.

(** X20.  A subscriber that connects and then disconnects, with no
    broadcast in between, leaves the server exactly as it was. *)
Theorem websocket_connect_disconnect ws w :
  ws ∉ websocket_connections w →
  websocket_disconnected ws (websocket_endpoint ws w).2 = (Ok tt, w).
Proof.
  intros Hnew. unfold websocket_disconnected, websocket_connections_remove,
    websocket_endpoint, modify. cbn.
  rewrite list_remove_snoc by done. destruct w; reflexivity.
Qed.

Lemma websocket_connect_disconnect_witness :
  (9%nat ∉ websocket_connections w_polled) ∧
  websocket_disconnected 9%nat (websocket_endpoint 9%nat w_polled).2
    = (Ok tt, w_polled).
Proof.
  assert (9%nat ∉ websocket_connections w_polled) as Hnew.
  { apply (bool_decide_unpack _). vm_compute. exact I. }
  split; [exact Hnew|].
  exact (websocket_connect_disconnect 9%nat w_polled Hnew).
Defined.

(** X21.  Once a broadcast has dropped a subscriber whose send failed,
    the removal that the endpoint makes on [WebSocketDisconnect] no longer
    finds it: [remove] raises [ValueError], and the list is left as the
    broadcast left it. *)
Theorem websocket_disconnect_after_prune ws w :
  ws ∈ ws_closed w →
  (ws ∉ websocket_connections (send_updates w).2) ∧
  websocket_disconnected ws (send_updates w).2
    = (Raise ValueError, (send_updates w).2).
Proof.
  intros Hclosed.
  assert (ws ∉ websocket_connections (send_updates w).2) as Hgone.
  { rewrite send_updates_run. cbn. unfold still_open.
    intros Hin. apply list_elem_of_filter in Hin as [Hopen _]. by apply Hopen. }
  split; [done|].
  unfold websocket_disconnected, websocket_connections_remove.
  by rewrite list_remove_absent.
Qed.

Lemma websocket_disconnect_after_prune_witness :
  2%nat ∈ ws_closed w_subscribers ∧
  2%nat ∈ websocket_connections w_subscribers ∧
  websocket_disconnected 2%nat (send_updates w_subscribers).2
    = (Raise ValueError, (send_updates w_subscribers).2).
Proof.
  assert (2%nat ∈ ws_closed w_subscribers) as Hclosed.
  { apply (bool_decide_unpack _). vm_compute. exact I. }
  split_and!; [exact Hclosed| |].
  - apply (bool_decide_unpack _). vm_compute. exact I.
  - exact (proj2 (websocket_disconnect_after_prune 2%nat w_subscribers Hclosed)).
Defined.

(** ** The extension check *)

Lemma substring_all s : String.substring 0 (String.length s) s = s.
Proof. induction s as [|a s IH]; cbn; [done|]. by rewrite IH. Qed.

Lemma substring_append_r p s :
  String.substring (String.length p) (String.length s) (p +:+ s) = s.
Proof. induction p as [|a p IH]; [apply substring_all|exact IH]. Qed.

Lemma substring_split n s :
  (n ≤ String.length s)%nat →
  s = String.substring 0 n s +:+ String.substring n (String.length s - n) s.
Proof.
  revert n. induction s as [|a s IH]; intros [|n]; cbn; intros H; try done; try lia.
  - by rewrite substring_all.
  - change (String a s = String a (String.substring 0 n s +:+
              String.substring n (String.length s - n) s)).
    f_equal. apply IH. lia.
Qed.

Lemma length_append p s :
  String.length (p +:+ s) = (String.length p + String.length s)%nat.
Proof.
  induction p as [|a p IH]; [done|].
  change (S (String.length (p +:+ s)) = S (String.length p + String.length s)).
  by rewrite IH.
Qed.

(** [endswith] holds of the strings that are a prefix followed by the
    suffix. *)
Lemma endswith_iff s suffix :
  endswith s suffix = true ↔ ∃ p, s = p +:+ suffix.
Proof.
  unfold endswith. rewrite andb_true_iff, !bool_decide_eq_true. split.
  - intros [Hle Hsub].
    exists (String.substring 0 (String.length s - String.length suffix) s).
    etrans; [apply (substring_split (String.length s - String.length suffix) s); lia|].
    f_equal.
    transitivity (String.substring (String.length s - String.length suffix)
                    (String.length suffix) s); [|exact Hsub].
    f_equal. lia.
  - intros [p ->]. rewrite length_append. split; [lia|].
    replace (String.length p + String.length suffix - String.length suffix)%nat
      with (String.length p) by lia.
    apply substring_append_r.
Qed.

(** X22.  An upload whose file name is not some text followed by
    [.torrent] is answered with the 400 error and changes nothing,
    whatever the file holds, be it a valid descriptor. *)
Theorem upload_torrent_wrong_extension lt_torrent_info file dl ul uuid4 now w :
  (∀ p, filename file ≠ p +:+ ".torrent") →
  upload_torrent lt_torrent_info file dl ul uuid4 now w
    = (Raise (HTTPException 400 (Literal "File must be a .torrent file")), w).
Proof.
  intros Hname. unfold upload_torrent.
  destruct (endswith (filename file) ".torrent") eqn:E; [|done].
  apply endswith_iff in E as [p Hp]. by destruct (Hname p).
Qed.

(** A valid descriptor under the name [movie.torrent.txt]. *)
Lemma upload_torrent_wrong_extension_witness :
  (∀ p, "movie.torrent.txt" ≠ p +:+ ".torrent") ∧
  sample_torrent_info "dmovie"
    = Ok {| ti_name := "movie"; ti_total_size := 1000; ti_info_hash := "movie" |} ∧
  upload_torrent sample_torrent_info
    {| filename := "movie.torrent.txt"; file_content := "dmovie" |}
    None None "id1" 1000 w_empty
    = (Raise (HTTPException 400 (Literal "File must be a .torrent file")), w_empty).
Proof.
  assert (∀ p, "movie.torrent.txt" ≠ p +:+ ".torrent") as Hname.
  { intros p Hp.
    assert (endswith "movie.torrent.txt" ".torrent" = true) as Hends
      by (apply endswith_iff; by exists p).
    vm_compute in Hends. discriminate Hends. }
  split_and!; [exact Hname|reflexivity|].
  exact (upload_torrent_wrong_extension sample_torrent_info
           {| filename := "movie.torrent.txt"; file_content := "dmovie" |}
           None None "id1" 1000 w_empty Hname).
Defined.
